(** * fdapp-frontend: order synchronisation and notification core

  A shallow embedding of the stateful part of the front end:

  - [Dashboard]     the dashboard component (components/dashboard/Dashboard.tsx):
                    [fetchOrders], [handleStatusUpdate], the visibility
                    listener and the 10 s auto-refresh interval, together with
                    [handleStatusChange] of OrderDetailModal.tsx;
  - [Notification]  the hook hooks/useNotification.ts: permission
                    negotiation, OS notifications and the toast queue.

  React state is an explicit record, the browser and the backend are part
  of an explicit world, and an [async] function is a computation in a small
  state-and-exception monad.  An [await] is taken to settle at once: a
  handler runs from its call to the settlement of its promise without
  another handler in between, and the state updates it makes after an
  [await] land together (React 18 batches them).  A value a callback closes
  over is read where the callback is created and handed on unchanged.
  Numbers that the source uses as identifiers, timestamps and delays are
  integers.  Strings are byte strings (UTF-8); the source only compares
  them with [===], concatenates them and cuts them at ASCII positions. *)

From Stdlib Require Import String Ascii List ZArith NArith Lia Bool.
From Stdlib Require Import Decimal DecimalString DecimalN DecimalZ.
Import ListNotations.
Open Scope string_scope.

(** ** JavaScript run-time conventions *)

Module Js.

(** A value thrown by the run time or rejected by a promise. *)
Inductive JsError : Type :=
| AxiosError (status : option Z) (message : string)
| TypeError (message : string).

(** How an [async] function call ends: it returns, it throws (its promise
    is rejected), or its promise is still pending when the fuel of a
    recursive call chain is used up. *)
Inductive Outcome (A : Type) : Type :=
| Return (a : A)
| Throw (e : JsError)
| Pending.
Arguments Return {A} a.
Arguments Throw {A} e.
Arguments Pending {A}.

(** Computations over a world [W]: the world is threaded through, and it
    keeps the effects made before a throw. *)
Definition M (W A : Type) : Type := W -> Outcome A * W.

Definition ret {W A} (a : A) : M W A := fun w => (Return a, w).

Definition bind {W A B} (m : M W A) (k : A -> M W B) : M W B :=
  fun w =>
    match m w with
    | (Return a, w1) => k a w1
    | (Throw e, w1) => (Throw e, w1)
    | (Pending, w1) => (Pending, w1)
    end.

Definition throw {W A} (e : JsError) : M W A := fun w => (Throw e, w).

Definition gets {W A} (f : W -> A) : M W A := fun w => (Return (f w), w).

Definition modify {W} (f : W -> W) : M W unit := fun w => (Return tt, f w).

(** [try { body } catch (error) { handler error }] *)
Definition try_catch {W A} (body : M W A) (handler : JsError -> M W A) : M W A :=
  fun w =>
    match body w with
    | (Throw e, w1) => handler e w1
    | r => r
    end.

(** [try { body } finally { fin }]: [fin] runs after a return and after a
    throw; what [body] ended with stands unless [fin] itself throws. *)
Definition try_finally {W A} (body : M W A) (fin : M W unit) : M W A :=
  fun w =>
    match body w with
    | (Pending, w1) => (Pending, w1)
    | (r, w1) =>
        match fin w1 with
        | (Return _, w2) => (r, w2)
        | (Throw e, w2) => (Throw e, w2)
        | (Pending, w2) => (Pending, w2)
        end
    end.

Definition when {W} (c : bool) (m : M W unit) : M W unit :=
  if c then m else ret tt.

(** [a || b] on an optional string: [undefined] and the empty string are
    falsy. *)
Definition or_string (a : option string) (b : string) : string :=
  match a with
  | Some EmptyString | None => b
  | Some s => s
  end.

(** Truthiness of an optional string. *)
Definition truthy_string (a : option string) : bool :=
  match a with
  | Some EmptyString | None => false
  | Some _ => true
  end.

(** A value interpolated in a template literal: [undefined] prints as the
    word. *)
Definition interpolate (a : option string) : string :=
  match a with
  | Some s => s
  | None => "undefined"
  end.

(** [Number.prototype.toString()] on an integer. *)
Definition number_toString (z : Z) : string :=
  NilZero.string_of_int (Z.to_int z).

(** [String.prototype.substr(start, length)] for a start that is not
    negative: what is there is returned when the string is too short. *)
Definition substr (start len : nat) (s : string) : string :=
  substring start len s.

End Js.

Declare Scope js_scope.
Delimit Scope js_scope with js.
Notation "x <- m ;; k" := (Js.bind m (fun x => k))
(at level 61, m at next level, right associativity) : js_scope.
Notation "m ;; k" := (Js.bind m (fun _ => k))
(at level 61, right associativity) : js_scope.

(** ** The dashboard component (Dashboard.tsx, OrderDetailModal.tsx) *)

Module Dashboard.
Import Js.
Local Open Scope js_scope.

(** [ShippingOrder] of types/index.ts, with the fields the dashboard logic
    reads. *)
Record ShippingOrder : Type := {
  id : Z;
  status : string;
  sender_name : string;
  receiver_name : string;
  tracking_number : option string
}.

Record DashboardStats : Type := {
  total : nat;
  접수완료 : nat;
  배송준비 : nat;
  배송중 : nat;
  배송완료 : nat;
  취소 : nat;
  반송 : nat
}.

(** The [useState] and [useRef] cells of the component. *)
Record State : Type := {
  orders : list ShippingOrder;
  stats : DashboardStats;
  loading : bool;
  selectedOrder : option ShippingOrder;
  isModalOpen : bool;
  isAutoRefreshEnabled : bool;
  lastUpdated : Z;
  isRefreshing : bool;
  visibilityRef : bool
}.

(** The cells of OrderDetailModal that [handleStatusChange] writes. *)
Record Modal : Type := {
  isUpdatingStatus : bool;
  showStatusDropdown : bool
}.

(** The argument of the [onOrderStatusChange] prop; its [status] field is
    [newStatus] here. *)
Record OrderInfo : Type := {
  orderId : Z;
  newStatus : string;
  customerName : string;
  trackingNumber : option string
}.

Inductive Request : Type :=
| GET_orders
| PATCH_status (orderId : Z) (status : string).

(** What the backend answers: a rejection (also standing for a response
    without [data]), or a body whose [orders] field may be missing.  The body
    of an accepted status update is not looked at. *)
Inductive Response : Type :=
| Rejected (e : JsError)
| Fulfilled (orders : option (list ShippingOrder)).

(** The component together with what it talks to.  [server n r] is the
    answer to request [r] when [n] requests were issued before it;
    [requests], [console] and [notified] record, oldest first, the requests
    sent, the calls of [console.error] and the calls of the
    [onOrderStatusChange] prop. *)
Record World : Type := {
  ui : State;
  modal : Modal;
  user_role : option string;
  has_onOrderStatusChange : bool;
  document_hidden : bool;
  now : Z;
  server : nat -> Request -> Response;
  requests : list Request;
  console : list (string * JsError);
  notified : list OrderInfo
}.

Definition with_ui (f : State -> State) (w : World) : World :=
  {| ui := f (ui w); modal := modal w; user_role := user_role w;
     has_onOrderStatusChange := has_onOrderStatusChange w;
     document_hidden := document_hidden w; now := now w; server := server w;
     requests := requests w; console := console w; notified := notified w |}.

Definition with_modal (f : Modal -> Modal) (w : World) : World :=
  {| ui := ui w; modal := f (modal w); user_role := user_role w;
     has_onOrderStatusChange := has_onOrderStatusChange w;
     document_hidden := document_hidden w; now := now w; server := server w;
     requests := requests w; console := console w; notified := notified w |}.

Definition with_document_hidden (h : bool) (w : World) : World :=
  {| ui := ui w; modal := modal w; user_role := user_role w;
     has_onOrderStatusChange := has_onOrderStatusChange w;
     document_hidden := h; now := now w; server := server w;
     requests := requests w; console := console w; notified := notified w |}.

Definition with_requests (l : list Request) (w : World) : World :=
  {| ui := ui w; modal := modal w; user_role := user_role w;
     has_onOrderStatusChange := has_onOrderStatusChange w;
     document_hidden := document_hidden w; now := now w; server := server w;
     requests := l; console := console w; notified := notified w |}.

Definition with_console (l : list (string * JsError)) (w : World) : World :=
  {| ui := ui w; modal := modal w; user_role := user_role w;
     has_onOrderStatusChange := has_onOrderStatusChange w;
     document_hidden := document_hidden w; now := now w; server := server w;
     requests := requests w; console := l; notified := notified w |}.

Definition with_notified (l : list OrderInfo) (w : World) : World :=
  {| ui := ui w; modal := modal w; user_role := user_role w;
     has_onOrderStatusChange := has_onOrderStatusChange w;
     document_hidden := document_hidden w; now := now w; server := server w;
     requests := requests w; console := console w; notified := l |}.

(** *** State setters *)

Definition setOrders (l : list ShippingOrder) : M World unit :=
  modify (with_ui (fun s =>
    {| orders := l; stats := stats s; loading := loading s;
       selectedOrder := selectedOrder s; isModalOpen := isModalOpen s;
       isAutoRefreshEnabled := isAutoRefreshEnabled s;
       lastUpdated := lastUpdated s; isRefreshing := isRefreshing s;
       visibilityRef := visibilityRef s |})).

Definition setStats (d : DashboardStats) : M World unit :=
  modify (with_ui (fun s =>
    {| orders := orders s; stats := d; loading := loading s;
       selectedOrder := selectedOrder s; isModalOpen := isModalOpen s;
       isAutoRefreshEnabled := isAutoRefreshEnabled s;
       lastUpdated := lastUpdated s; isRefreshing := isRefreshing s;
       visibilityRef := visibilityRef s |})).

Definition setLoading (b : bool) : M World unit :=
  modify (with_ui (fun s =>
    {| orders := orders s; stats := stats s; loading := b;
       selectedOrder := selectedOrder s; isModalOpen := isModalOpen s;
       isAutoRefreshEnabled := isAutoRefreshEnabled s;
       lastUpdated := lastUpdated s; isRefreshing := isRefreshing s;
       visibilityRef := visibilityRef s |})).

Definition setSelectedOrder (o : option ShippingOrder) : M World unit :=
  modify (with_ui (fun s =>
    {| orders := orders s; stats := stats s; loading := loading s;
       selectedOrder := o; isModalOpen := isModalOpen s;
       isAutoRefreshEnabled := isAutoRefreshEnabled s;
       lastUpdated := lastUpdated s; isRefreshing := isRefreshing s;
       visibilityRef := visibilityRef s |})).

Definition setIsModalOpen (b : bool) : M World unit :=
  modify (with_ui (fun s =>
    {| orders := orders s; stats := stats s; loading := loading s;
       selectedOrder := selectedOrder s; isModalOpen := b;
       isAutoRefreshEnabled := isAutoRefreshEnabled s;
       lastUpdated := lastUpdated s; isRefreshing := isRefreshing s;
       visibilityRef := visibilityRef s |})).

Definition setIsAutoRefreshEnabled (b : bool) : M World unit :=
  modify (with_ui (fun s =>
    {| orders := orders s; stats := stats s; loading := loading s;
       selectedOrder := selectedOrder s; isModalOpen := isModalOpen s;
       isAutoRefreshEnabled := b;
       lastUpdated := lastUpdated s; isRefreshing := isRefreshing s;
       visibilityRef := visibilityRef s |})).

Definition setLastUpdated (t : Z) : M World unit :=
  modify (with_ui (fun s =>
    {| orders := orders s; stats := stats s; loading := loading s;
       selectedOrder := selectedOrder s; isModalOpen := isModalOpen s;
       isAutoRefreshEnabled := isAutoRefreshEnabled s;
       lastUpdated := t; isRefreshing := isRefreshing s;
       visibilityRef := visibilityRef s |})).

Definition setIsRefreshing (b : bool) : M World unit :=
  modify (with_ui (fun s =>
    {| orders := orders s; stats := stats s; loading := loading s;
       selectedOrder := selectedOrder s; isModalOpen := isModalOpen s;
       isAutoRefreshEnabled := isAutoRefreshEnabled s;
       lastUpdated := lastUpdated s; isRefreshing := b;
       visibilityRef := visibilityRef s |})).

Definition set_visibilityRef (b : bool) : M World unit :=
  modify (with_ui (fun s =>
    {| orders := orders s; stats := stats s; loading := loading s;
       selectedOrder := selectedOrder s; isModalOpen := isModalOpen s;
       isAutoRefreshEnabled := isAutoRefreshEnabled s;
       lastUpdated := lastUpdated s; isRefreshing := isRefreshing s;
       visibilityRef := b |})).

Definition setIsUpdatingStatus (b : bool) : M World unit :=
  modify (with_modal (fun m =>
    {| isUpdatingStatus := b; showStatusDropdown := showStatusDropdown m |})).

Definition setShowStatusDropdown (b : bool) : M World unit :=
  modify (with_modal (fun m =>
    {| isUpdatingStatus := isUpdatingStatus m; showStatusDropdown := b |})).

(** *** The collaborators *)

(** One request to the backend: it is recorded, and the server's answer
    either comes back as the body or is thrown. *)
Definition send (r : Request) : M World (option (list ShippingOrder)) :=
  fun w =>
    let w' := with_requests (requests w ++ [r]) w in
    match server w (length (requests w)) r with
    | Rejected e => (Throw e, w')
    | Fulfilled body => (Return body, w')
    end.

Definition console_error (label : string) (error : JsError) : M World unit :=
  fun w => (Return tt, with_console (console w ++ [(label, error)]) w).

Definition onOrderStatusChange (i : OrderInfo) : M World unit :=
  fun w => (Return tt, with_notified (notified w ++ [i]) w).

(** *** fetchOrders *)

Definition count_status (s : string) (ordersData : list ShippingOrder) : nat :=
  length (filter (fun o => String.eqb (status o) s) ordersData).

Definition newStats (ordersData : list ShippingOrder) : DashboardStats :=
  {| total := length ordersData;
     접수완료 := count_status "접수완료" ordersData;
     배송준비 := count_status "배송준비" ordersData;
     배송중 := count_status "배송중" ordersData;
     배송완료 := count_status "배송완료" ordersData;
     취소 := count_status "취소" ordersData;
     반송 := count_status "반송" ordersData |}.

Definition fetchOrders (showRefreshIndicator : bool) : M World unit :=
  try_finally
    (try_catch
       ((if showRefreshIndicator then setIsRefreshing true else setLoading true) ;;
        response <- send GET_orders ;;
        let ordersData := match response with Some l => l | None => [] end in
        setOrders ordersData ;;
        t <- gets now ;;
        setLastUpdated t ;;
        setStats (newStats ordersData))
       (fun error => console_error "주문 목록을 가져오는 중 오류 발생:" error))
    (setLoading false ;;
     setIsRefreshing false).

(** *** handleStatusUpdate *)

Definition with_status (o : ShippingOrder) (s : string) : ShippingOrder :=
  {| id := id o; status := s; sender_name := sender_name o;
     receiver_name := receiver_name o; tracking_number := tracking_number o |}.

(** [selectedOrder] is the value the handler closed over when it was
    created; it is read once, before the first [await]. *)
Definition handleStatusUpdate (orderId : Z) (newStatus : string) : M World unit :=
  selectedOrder <- gets (fun w => selectedOrder (ui w)) ;;
  has_callback <- gets has_onOrderStatusChange ;;
  try_catch
    (send (PATCH_status orderId newStatus) ;;
     fetchOrders true ;;
     match selectedOrder with
     | Some sel => when (Z.eqb (id sel) orderId)
                        (setSelectedOrder (Some (with_status sel newStatus)))
     | None => ret tt
     end ;;
     match selectedOrder with
     | Some sel => when has_callback
                        (onOrderStatusChange
                           {| orderId := orderId; newStatus := newStatus;
                              customerName := receiver_name sel;
                              trackingNumber := tracking_number sel |})
     | None => ret tt
     end)
    (fun error => console_error "상태 업데이트 실패:" error).

(** *** OrderDetailModal: handleStatusChange *)

Definition privileged (role : option string) : bool :=
  match role with
  | Some r => String.eqb r "admin" || String.eqb r "manager"
  | None => false
  end.

(** The [onStatusUpdate] prop the dashboard passes to the modal. *)
Definition onStatusUpdate (w : World) : option (Z -> string -> M World unit) :=
  if privileged (user_role w) then Some handleStatusUpdate else None.

Definition handleStatusChange (order : ShippingOrder) (newStatus : string)
  : M World unit :=
  fun w =>
    match onStatusUpdate w with
    | None => (Return tt, w)
    | Some update =>
        (setIsUpdatingStatus true ;;
         try_finally
           (try_catch
              (update (id order) newStatus ;;
               setShowStatusDropdown false)
              (fun error => console_error "상태 변경 실패:" error))
           (setIsUpdatingStatus false)) w
    end.

(** *** Visibility listener and auto-refresh interval *)

Definition handleVisibilityChange : M World unit :=
  hidden <- gets document_hidden ;;
  set_visibilityRef (negb hidden) ;;
  enabled <- gets (fun w => isAutoRefreshEnabled (ui w)) ;;
  when (negb hidden && enabled) (fetchOrders true).

(** The callback given to [setInterval(..., 10000)]. *)
Definition interval_callback : M World unit :=
  visible <- gets (fun w => visibilityRef (ui w)) ;;
  when visible (fetchOrders true).

Definition interval_period : Z := 10000.

Definition handleManualRefresh : M World unit := fetchOrders true.

Definition toggleAutoRefresh : M World unit :=
  enabled <- gets (fun w => isAutoRefreshEnabled (ui w)) ;;
  setIsAutoRefreshEnabled (negb enabled).

Definition handleOrderClick (order : ShippingOrder) : M World unit :=
  setSelectedOrder (Some order) ;;
  setIsModalOpen true.

Definition handleCloseModal : M World unit :=
  setIsModalOpen false ;;
  setSelectedOrder None.

(** *** The component as an event machine *)

Definition initialStats : DashboardStats :=
  {| total := 0; 접수완료 := 0; 배송준비 := 0; 배송중 := 0; 배송완료 := 0;
     취소 := 0; 반송 := 0 |}.

(** The initial values of the [useState] and [useRef] calls. *)
Definition initialState (t : Z) : State :=
  {| orders := []; stats := initialStats; loading := true;
     selectedOrder := None; isModalOpen := false;
     isAutoRefreshEnabled := true; lastUpdated := t; isRefreshing := false;
     visibilityRef := true |}.

(** The world in which the component is rendered for the first time. *)
Definition initialWorld (role : option string) (hidden : bool) (t : Z)
    (srv : nat -> Request -> Response) : World :=
  {| ui := initialState t;
     modal := {| isUpdatingStatus := false; showStatusDropdown := false |};
     user_role := role; has_onOrderStatusChange := true;
     document_hidden := hidden; now := t; server := srv;
     requests := []; console := []; notified := [] |}.

(** What can happen to a mounted dashboard.  The interval exists exactly
    while [isAutoRefreshEnabled] holds (the effect creates it when the flag
    is set and clears it when the flag is reset), so the elapsing of a
    period reaches [interval_callback] only then. *)
Inductive Event : Type :=
| Mount
| VisibilityChange (hidden : bool)
| IntervalElapsed
| ManualRefresh
| ToggleAutoRefresh
| OrderClick (order : ShippingOrder)
| CloseModal
| StatusChange (order : ShippingOrder) (newStatus : string).

Definition dispatch (ev : Event) : M World unit :=
  match ev with
  | Mount => fetchOrders false
  | VisibilityChange hidden =>
      modify (with_document_hidden hidden) ;;
      handleVisibilityChange
  | IntervalElapsed =>
      enabled <- gets (fun w => isAutoRefreshEnabled (ui w)) ;;
      when enabled interval_callback
  | ManualRefresh => handleManualRefresh
  | ToggleAutoRefresh => toggleAutoRefresh
  | OrderClick order => handleOrderClick order
  | CloseModal => handleCloseModal
  | StatusChange order newStatus => handleStatusChange order newStatus
  end.

Definition exec {A} (m : M World A) (w : World) : World := snd (m w).

Definition run (evs : list Event) (w : World) : World :=
  fold_left (fun w ev => exec (dispatch ev) w) evs w.

(** The number of refreshes the backend has seen. *)
Definition is_GET (r : Request) : bool :=
  match r with GET_orders => true | PATCH_status _ _ => false end.

Definition refreshes (w : World) : nat := length (filter is_GET (requests w)).

(** The page is hidden, stays hidden for [ms] milliseconds while the
    interval keeps elapsing, and is then shown again. *)
Definition hidden_for (ms : Z) : list Event :=
  VisibilityChange true
    :: repeat IntervalElapsed (Z.to_nat (ms / interval_period))
    ++ [VisibilityChange false].

End Dashboard.

(** ** The notification hook (hooks/useNotification.ts) *)

Module Notification.
Import Js.
Local Open Scope js_scope.

Inductive NotificationPermission : Type := default | granted | denied.

Definition permission_eqb (a b : NotificationPermission) : bool :=
  match a, b with
  | default, default | granted, granted | denied, denied => true
  | _, _ => false
  end.

Record NotificationOptions : Type := {
  title : string;
  body : string;
  icon : option string;
  tag : option string;
  requireInteraction : option bool;
  timeout : option Z
}.

(** What [new Notification(title, {body, icon, tag, requireInteraction})]
    puts on the screen. *)
Record OsNotification : Type := {
  n_title : string;
  n_body : string;
  n_icon : string;
  n_tag : option string;
  n_requireInteraction : bool
}.

(** The argument of [showToast], [Omit<ToastNotification, 'id'>].  The type
    and the title are what the caller computed, which for
    [notifyOrderStatusChange] can be [undefined] ([None]). *)
Record ToastInput : Type := {
  t_type : option string;
  t_title : option string;
  t_message : string;
  t_timeout : option Z
}.

Record ToastNotification : Type := {
  toast_id : string;
  toast_type : option string;
  toast_title : option string;
  toast_message : string;
  toast_timeout : option Z
}.

(** What a [setTimeout] callback of the hook does when it runs: close the
    [k]-th notification shown, or remove a toast. *)
Inductive TimerAction : Type :=
| CloseNotification (k : nat)
| RemoveToast (id : string).

(** The hook's two state cells, and the browser around it:
    ['Notification' in window], the browser's own permission record, the
    answer the user gives to the [k]-th prompt, counters for the calls of
    [Notification.requestPermission()] and for the prompts shown, the
    notifications shown so far (oldest first) and those closed, the pending
    timers with their remaining delay, the clock read by [Date.now()] and
    the strings [Math.random().toString(36)] yields, draw by draw. *)
Record World : Type := {
  permission : NotificationPermission;
  toasts : list ToastNotification;
  Notification_in_window : bool;
  Notification_permission : NotificationPermission;
  user_answer : nat -> NotificationPermission;
  requestPermission_calls : nat;
  prompts : nat;
  displayed : list OsNotification;
  closed : list nat;
  timers : list (Z * TimerAction);
  Date_now : Z;
  Math_random : nat -> string;
  draws : nat
}.

Definition with_permission (p : NotificationPermission) (w : World) : World :=
  {| permission := p; toasts := toasts w;
     Notification_in_window := Notification_in_window w;
     Notification_permission := Notification_permission w;
     user_answer := user_answer w;
     requestPermission_calls := requestPermission_calls w;
     prompts := prompts w; displayed := displayed w; closed := closed w;
     timers := timers w; Date_now := Date_now w;
     Math_random := Math_random w; draws := draws w |}.

Definition with_toasts (f : list ToastNotification -> list ToastNotification)
    (w : World) : World :=
  {| permission := permission w; toasts := f (toasts w);
     Notification_in_window := Notification_in_window w;
     Notification_permission := Notification_permission w;
     user_answer := user_answer w;
     requestPermission_calls := requestPermission_calls w;
     prompts := prompts w; displayed := displayed w; closed := closed w;
     timers := timers w; Date_now := Date_now w;
     Math_random := Math_random w; draws := draws w |}.

Definition with_browser_permission (p : NotificationPermission) (calls shown : nat)
    (w : World) : World :=
  {| permission := permission w; toasts := toasts w;
     Notification_in_window := Notification_in_window w;
     Notification_permission := p;
     user_answer := user_answer w;
     requestPermission_calls := calls;
     prompts := shown; displayed := displayed w; closed := closed w;
     timers := timers w; Date_now := Date_now w;
     Math_random := Math_random w; draws := draws w |}.

Definition with_displayed (l : list OsNotification) (c : list nat) (w : World)
    : World :=
  {| permission := permission w; toasts := toasts w;
     Notification_in_window := Notification_in_window w;
     Notification_permission := Notification_permission w;
     user_answer := user_answer w;
     requestPermission_calls := requestPermission_calls w;
     prompts := prompts w; displayed := l; closed := c;
     timers := timers w; Date_now := Date_now w;
     Math_random := Math_random w; draws := draws w |}.

Definition with_timers (l : list (Z * TimerAction)) (w : World) : World :=
  {| permission := permission w; toasts := toasts w;
     Notification_in_window := Notification_in_window w;
     Notification_permission := Notification_permission w;
     user_answer := user_answer w;
     requestPermission_calls := requestPermission_calls w;
     prompts := prompts w; displayed := displayed w; closed := closed w;
     timers := l; Date_now := Date_now w;
     Math_random := Math_random w; draws := draws w |}.

Definition with_clock (t : Z) (w : World) : World :=
  {| permission := permission w; toasts := toasts w;
     Notification_in_window := Notification_in_window w;
     Notification_permission := Notification_permission w;
     user_answer := user_answer w;
     requestPermission_calls := requestPermission_calls w;
     prompts := prompts w; displayed := displayed w; closed := closed w;
     timers := timers w; Date_now := t;
     Math_random := Math_random w; draws := draws w |}.

Definition with_draws (n : nat) (w : World) : World :=
  {| permission := permission w; toasts := toasts w;
     Notification_in_window := Notification_in_window w;
     Notification_permission := Notification_permission w;
     user_answer := user_answer w;
     requestPermission_calls := requestPermission_calls w;
     prompts := prompts w; displayed := displayed w; closed := closed w;
     timers := timers w; Date_now := Date_now w;
     Math_random := Math_random w; draws := n |}.

(** *** Browser primitives *)

(** [Notification.requestPermission()]: a decided permission is returned as
    it is; an undecided one prompts the user and records the answer. *)
Definition Notification_requestPermission : M World NotificationPermission :=
  fun w =>
    let calls := S (requestPermission_calls w) in
    match Notification_permission w with
    | default =>
        let answer := user_answer w (prompts w) in
        (Return answer, with_browser_permission answer calls (S (prompts w)) w)
    | decided =>
        (Return decided, with_browser_permission decided calls (prompts w) w)
    end.

(** [new Notification(title, options)]; the result is the index of the
    notification among those shown. *)
Definition new_Notification (n : OsNotification) : M World nat :=
  fun w => (Return (length (displayed w)),
            with_displayed (displayed w ++ [n]) (closed w) w).

Definition notification_close (k : nat) : M World unit :=
  fun w => (Return tt, with_displayed (displayed w) (closed w ++ [k]) w).

Definition setTimeout (action : TimerAction) (delay : Z) : M World unit :=
  fun w => (Return tt, with_timers (timers w ++ [(delay, action)]) w).

(** [Math.random().toString(36)] *)
Definition Math_random_toString36 : M World string :=
  fun w => (Return (Math_random w (draws w)), with_draws (S (draws w)) w).

(** *** requestPermission *)

Definition setPermission (p : NotificationPermission) : M World unit :=
  modify (with_permission p).

Definition requestPermission : M World NotificationPermission :=
  available <- gets Notification_in_window ;;
  if (available : bool) then
    result <- Notification_requestPermission ;;
    setPermission result ;;
    ret result
  else ret denied.

(** *** showBrowserNotification

    The callback closes over [permission], the value of the state cell in
    the render that created it ([useCallback] with [permission] among its
    dependencies), and over itself: the name used in the retry is the
    constant of that same render.  The captured value is therefore an
    argument here, handed on unchanged by the recursive call.  [fuel] bounds
    the depth of the retry chain. *)
Fixpoint showBrowserNotification (fuel : nat) (permission : NotificationPermission)
    (options : NotificationOptions) : M World (option nat) :=
  fun w =>
    if Notification_in_window w && permission_eqb permission granted then
      (notification <- new_Notification
           {| n_title := title options;
              n_body := body options;
              n_icon := or_string (icon options) "/favicon.ico";
              n_tag := tag options;
              n_requireInteraction :=
                match requireInteraction options with
                | Some b => b
                | None => false
                end |} ;;
       match timeout options with
       | Some t => when (negb (Z.eqb t 0))
                        (setTimeout (CloseNotification notification) t)
       | None => ret tt
       end ;;
       ret (Some notification)) w
    else if permission_eqb permission default then
      (newPermission <- requestPermission ;;
       if permission_eqb newPermission granted then
         match fuel with
         | S fuel' => showBrowserNotification fuel' permission options
         | O => fun w' => (Pending, w')
         end
       else ret None) w
    else (Return None, w).

(** The callback a caller gets from the latest render. *)
Definition current_showBrowserNotification (fuel : nat)
    (options : NotificationOptions) : M World (option nat) :=
  fun w => showBrowserNotification fuel (permission w) options w.

(** *** Toasts *)

Definition setToasts (f : list ToastNotification -> list ToastNotification)
    : M World unit :=
  modify (with_toasts f).

Definition removeToast (id : string) : M World unit :=
  setToasts (filter (fun toast => negb (String.eqb (toast_id toast) id))).

Definition clearToasts : M World unit :=
  setToasts (fun _ => []).

Definition showToast (toast : ToastInput) : M World string :=
  t <- gets Date_now ;;
  r <- Math_random_toString36 ;;
  let id := number_toString t ++ substr 2 9 r in
  let newToast :=
    {| toast_id := id;
       toast_type := t_type toast;
       toast_title := t_title toast;
       toast_message := t_message toast;
       toast_timeout :=
         match t_timeout toast with
         | Some 0%Z | None => Some 5000%Z
         | Some x => Some x
         end |} in
  setToasts (fun prev => (prev ++ [newToast])%list) ;;
  match toast_timeout newToast with
  | Some x => when (negb (Z.eqb x 0) && Z.ltb 0 x)
                   (setTimeout (RemoveToast id) x)
  | None => ret tt
  end ;;
  ret id.

(** *** Timers *)

Definition fire (action : TimerAction) : M World unit :=
  match action with
  | CloseNotification k => notification_close k
  | RemoveToast id => removeToast id
  end.

Definition due (ms : Z) (timer : Z * TimerAction) : bool := Z.leb (fst timer) ms.

(** [ms] milliseconds pass: the timers that are due run in the order they
    were set, the others come closer. *)
Definition advance (ms : Z) (w : World) : World :=
  let ready := filter (due ms) (timers w) in
  let waiting := filter (fun timer => negb (due ms timer)) (timers w) in
  let w1 := with_clock (Date_now w + ms)
              (with_timers (map (fun timer => (fst timer - ms, snd timer)%Z) waiting) w) in
  fold_left (fun w' timer => snd (fire (snd timer) w')) ready w1.

(** *** notifyOrderStatusChange *)

Record OrderInfo : Type := {
  orderId : Z;
  status : string;
  customerName : option string;
  trackingNumber : option string
}.

(** An entry of the status table.  A field is optional because the value
    the lookup yields need not be one of the table's entries. *)
Record StatusInfo : Type := {
  info_title : option string;
  emoji : option string;
  color : option string
}.

Definition entry (t e c : string) : StatusInfo :=
  {| info_title := Some t; emoji := Some e; color := Some c |}.

Definition statusMessages : list (string * StatusInfo) :=
  [ ("접수완료", entry "주문 접수 완료" "📦" "info");
    ("배송준비", entry "배송 준비 중" "📋" "info");
    ("배송중", entry "배송 시작" "🚚" "info");
    ("배송완료", entry "배송 완료" "✅" "success");
    ("취소", entry "주문 취소" "❌" "warning");
    ("반송", entry "주문 반송" "↩️" "error") ].

Definition default_statusInfo : StatusInfo := entry "상태 변경" "📋" "info".

(** The property names every object literal inherits from
    [Object.prototype]. *)
Definition Object_prototype_names : list string :=
  [ "constructor"; "hasOwnProperty"; "isPrototypeOf"; "propertyIsEnumerable";
    "toLocaleString"; "toString"; "valueOf"; "__proto__";
    "__defineGetter__"; "__defineSetter__"; "__lookupGetter__";
    "__lookupSetter__" ].

Fixpoint own_property (key : string) (table : list (string * StatusInfo))
    : option StatusInfo :=
  match table with
  | [] => None
  | (k, v) :: rest => if String.eqb k key then Some v else own_property key rest
  end.

(** The member an inherited name yields, a function or [Object.prototype]
    itself, is an object without [title], [emoji] or [color]. *)
Definition inherited_member : StatusInfo :=
  {| info_title := None; emoji := None; color := None |}.

(** [statusMessages[key]]: an own property, else an inherited one, else
    [undefined]. *)
Definition statusMessages_get (key : string) : option StatusInfo :=
  match own_property key statusMessages with
  | Some v => Some v
  | None =>
      if existsb (String.eqb key) Object_prototype_names
      then Some inherited_member
      else None
  end.

(** [statusMessages[orderInfo.status] || { title: '상태 변경', ... }]: every
    object is truthy. *)
Definition statusInfo_of (status : string) : StatusInfo :=
  match statusMessages_get status with
  | Some v => v
  | None => default_statusInfo
  end.

Definition newline : string := String (ascii_of_nat 10) EmptyString.

Definition status_notification (orderInfo : OrderInfo) : NotificationOptions :=
  let statusInfo := statusInfo_of (status orderInfo) in
  let message :=
    if truthy_string (trackingNumber orderInfo)
    then "운송장: " ++ interpolate (trackingNumber orderInfo)
    else "주문번호: " ++ number_toString (orderId orderInfo) in
  {| title := interpolate (emoji statusInfo) ++ " " ++ interpolate (info_title statusInfo);
     body := or_string (customerName orderInfo) "고객" ++ "님의 주문이 "
             ++ status orderInfo ++ " 상태로 변경되었습니다." ++ newline ++ message;
     icon := None;
     tag := Some ("order-" ++ number_toString (orderId orderInfo));
     requireInteraction := Some (String.eqb (status orderInfo) "배송완료");
     timeout := Some 8000%Z |}.

Definition status_toast (orderInfo : OrderInfo) : ToastInput :=
  let statusInfo := statusInfo_of (status orderInfo) in
  {| t_type := color statusInfo;
     t_title := info_title statusInfo;
     t_message := "주문 #" ++ number_toString (orderId orderInfo) ++ "이 "
                  ++ status orderInfo ++ " 상태로 변경되었습니다.";
     t_timeout := Some 5000%Z |}.

(** [permission] is the value [showBrowserNotification] closed over in the
    render this callback comes from. *)
Definition notifyOrderStatusChange (fuel : nat) (permission : NotificationPermission)
    (orderInfo : OrderInfo) : M World unit :=
  showBrowserNotification fuel permission (status_notification orderInfo) ;;
  showToast (status_toast orderInfo) ;;
  ret tt.

Definition current_notifyOrderStatusChange (fuel : nat) (orderInfo : OrderInfo)
    : M World unit :=
  fun w => notifyOrderStatusChange fuel (permission w) orderInfo w.

(** The effect that runs once after the first render. *)
Definition mount : M World unit :=
  available <- gets Notification_in_window ;;
  if (available : bool) then
    p <- gets Notification_permission ;;
    setPermission p
  else ret tt.

(** The first render: [useState('default')] and [useState([])]. *)
Definition initialWorld (available : bool) (browser : NotificationPermission)
    (answers : nat -> NotificationPermission) (t : Z) (random : nat -> string)
    : World :=
  {| permission := default; toasts := [];
     Notification_in_window := available;
     Notification_permission := browser;
     user_answer := answers;
     requestPermission_calls := 0; prompts := 0;
     displayed := []; closed := []; timers := [];
     Date_now := t; Math_random := random; draws := 0 |}.

End Notification.

(** ** What the specification talks about *)

Module Spec.
Import Js.

(** *** Dashboard *)

Section Snapshot.
Import Dashboard.

(** The number of orders of a list that have a given status. *)
Definition occurrences (s : string) (l : list ShippingOrder) : nat :=
  count_occ string_dec (map status l) s.

(** The counts of a state describe its order list. *)
Definition consistent (st : State) : Prop :=
  total (stats st) = length (orders st)
  /\ 접수완료 (stats st) = occurrences "접수완료" (orders st)
  /\ 배송준비 (stats st) = occurrences "배송준비" (orders st)
  /\ 배송중 (stats st) = occurrences "배송중" (orders st)
  /\ 배송완료 (stats st) = occurrences "배송완료" (orders st)
  /\ 취소 (stats st) = occurrences "취소" (orders st)
  /\ 반송 (stats st) = occurrences "반송" (orders st).

Definition recognized_statuses : list string :=
  ["접수완료"; "배송준비"; "배송중"; "배송완료"; "취소"; "반송"].

Definition recognized (s : string) : bool :=
  existsb (String.eqb s) recognized_statuses.

Definition unrecognized_orders (l : list ShippingOrder) : list ShippingOrder :=
  filter (fun o => negb (recognized (status o))) l.

Definition sum_of_counters (d : DashboardStats) : nat :=
  접수완료 d + 배송준비 d + 배송중 d + 배송완료 d + 취소 d + 반송 d.

(** The order list a response body stands for: [response.data.orders || []]. *)
Definition ordersData (body : option (list ShippingOrder)) : list ShippingOrder :=
  match body with Some l => l | None => [] end.

(** The single-field patch the specification describes:
    the status of the order with the given id is replaced, every other
    order is kept. *)
Definition patchStatus (orderId : Z) (newStatus : string)
    (l : list ShippingOrder) : list ShippingOrder :=
  map (fun o => if Z.eqb (id o) orderId then with_status o newStatus else o) l.

(** The visibility flag the interval reads agrees with the document. *)
Definition synced (w : World) : Prop :=
  visibilityRef (ui w) = negb (document_hidden w).

(** Every event either leaves the list and the counts alone, or stores a
    list together with the counts computed from it. *)
Definition snapshot_step (w w' : World) : Prop :=
  (orders (ui w') = orders (ui w) /\ stats (ui w') = stats (ui w))
  \/ stats (ui w') = newStats (orders (ui w')).

(** *** Concrete inputs *)

Definition order1 : ShippingOrder :=
  {| id := 1; status := "접수완료"; sender_name := "Kim";
     receiver_name := "Lee"; tracking_number := None |}.

Definition order2 : ShippingOrder :=
  {| id := 2; status := "배송중"; sender_name := "Park";
     receiver_name := "Choi"; tracking_number := Some "1234567890" |}.

Definition order3 : ShippingOrder :=
  {| id := 3; status := "보류"; sender_name := "Han";
     receiver_name := "Yoon"; tracking_number := None |}.

Definition network_error : JsError := AxiosError None "Network Error".

(** A backend that rejects every request. *)
Definition server_down : nat -> Request -> Response :=
  fun _ _ => Rejected network_error.

(** A backend that accepts status updates and answers every list request
    with [l]. *)
Definition server_serving (l : list ShippingOrder) : nat -> Request -> Response :=
  fun _ _ => Fulfilled (Some l).

(** A backend that accepts status updates and rejects list requests. *)
Definition server_update_only : nat -> Request -> Response :=
  fun _ r =>
    match r with
    | GET_orders => Rejected network_error
    | PATCH_status _ _ => Fulfilled None
    end.

(** A dashboard of an administrator that shows [l], with [sel] open in the
    modal and the status menu unfolded. *)
Definition showing (l : list ShippingOrder) (sel : option ShippingOrder)
    (srv : nat -> Request -> Response) : World :=
  {| ui := {| orders := l; stats := newStats l; loading := false;
              selectedOrder := sel; isModalOpen := true;
              isAutoRefreshEnabled := true; lastUpdated := 0;
              isRefreshing := false; visibilityRef := true |};
     modal := {| isUpdatingStatus := false; showStatusDropdown := true |};
     user_role := Some "admin"; has_onOrderStatusChange := true;
     document_hidden := false; now := 0; server := srv;
     requests := []; console := []; notified := [] |}.

End Snapshot.

(** *** Notification hook *)

Section Hook.
Import Notification.

(** The id [showToast] gives a toast: it depends on the clock and on the
    random draw only. *)
Definition toast_id_of (t : Z) (random36 : string) : string :=
  (number_toString t ++ substr 2 9 random36)%string.

(** Auto-removal of the toast [id] is pending. *)
Definition removal_scheduled (id : string) (w : World) : bool :=
  existsb (fun timer =>
             match snd timer with
             | RemoveToast id' => String.eqb id' id
             | CloseNotification _ => false
             end) (timers w).

Definition present (id : string) (w : World) : bool :=
  existsb (fun toast => String.eqb (toast_id toast) id) (toasts w).

(** The six keys of the status table. *)
Definition table_keys : list string := map fst statusMessages.

(** A browser with the Notification API in which the hook has just been
    mounted: [browser] is the permission the browser holds and [answer] what
    the user replies to every prompt. *)
Definition mounted (browser answer : NotificationPermission) : World :=
  snd (mount (initialWorld true browser (fun _ => answer) 1730000000000
                (fun _ => "0.4fzyo82mvyr"))).

(** Two draws that differ after their ninth digit. *)
Definition close_draws (k : nat) : string :=
  match k with
  | O => "0.4fzyo82mvyr"
  | _ => "0.4fzyo82mvzz"
  end.

Definition two_toasts_one_millisecond : World :=
  initialWorld true granted (fun _ => granted) 1730000000000 close_draws.

Definition plain_toast (timeout : option Z) : ToastInput :=
  {| t_type := Some "info"; t_title := Some "t"; t_message := "m";
     t_timeout := timeout |}.

Definition options_X_Y : NotificationOptions :=
  {| title := "X"; body := "Y"; icon := None; tag := None;
     requireInteraction := None; timeout := None |}.

(** The request resolves to [granted] from here on. *)
Definition granting (w : World) : Prop :=
  Notification_in_window w = true
  /\ (Notification_permission w = granted
      \/ (Notification_permission w = default
          /\ user_answer w (prompts w) = granted)).

(** What [new Notification] shows for given options. *)
Definition shown (options : NotificationOptions) : OsNotification :=
  {| n_title := title options; n_body := body options;
     n_icon := or_string (icon options) "/favicon.ico";
     n_tag := tag options;
     n_requireInteraction :=
       match requireInteraction options with
       | Some b => b
       | None => false
       end |}.

End Hook.

End Spec.

(** ** The rest of the hook: new-order alerts and sequences of calls *)

Module Alerts.
Import Js Notification.
Local Open Scope js_scope.

(** The argument of [notifyNewOrder]. *)
Record NewOrderInfo : Type := {
  new_orderId : Z;
  new_customerName : string;
  productName : option string;
  amount : option Z
}.

Definition new_order_notification (orderInfo : NewOrderInfo) : NotificationOptions :=
  {| title := "🆕 새 주문 접수";
     body := new_customerName orderInfo ++ "님이 새 주문을 등록했습니다." ++ newline
             ++ "주문번호: " ++ number_toString (new_orderId orderInfo);
     icon := None;
     tag := Some ("new-order-" ++ number_toString (new_orderId orderInfo));
     requireInteraction := Some true;
     timeout := None |}.

Definition new_order_toast (orderInfo : NewOrderInfo) : ToastInput :=
  {| t_type := Some "info";
     t_title := Some "새 주문 접수";
     t_message := new_customerName orderInfo ++ "님의 주문 #"
                  ++ number_toString (new_orderId orderInfo) ++ "이 접수되었습니다.";
     t_timeout := Some 7000%Z |}.

(** [permission] is the value [showBrowserNotification] closed over in the
    render this callback comes from. *)
Definition notifyNewOrder (fuel : nat) (permission : NotificationPermission)
    (orderInfo : NewOrderInfo) : M World unit :=
  showBrowserNotification fuel permission (new_order_notification orderInfo) ;;
  showToast (new_order_toast orderInfo) ;;
  ret tt.

(** What a user of the hook can do with what it returns, each callback
    taken from the latest render, and the passing of time. *)
Inductive Call : Type :=
| CallRequestPermission
| CallShowBrowserNotification (options : NotificationOptions)
| CallShowToast (toast : ToastInput)
| CallRemoveToast (id : string)
| CallClearToasts
| CallNotifyOrderStatusChange (orderInfo : OrderInfo)
| CallNotifyNewOrder (orderInfo : NewOrderInfo)
| Elapse (ms : Z).

Definition perform (fuel : nat) (c : Call) (w : World) : World :=
  match c with
  | CallRequestPermission => snd (requestPermission w)
  | CallShowBrowserNotification options =>
      snd (current_showBrowserNotification fuel options w)
  | CallShowToast toast => snd (showToast toast w)
  | CallRemoveToast id => snd (removeToast id w)
  | CallClearToasts => snd (clearToasts w)
  | CallNotifyOrderStatusChange orderInfo =>
      snd (current_notifyOrderStatusChange fuel orderInfo w)
  | CallNotifyNewOrder orderInfo =>
      snd (notifyNewOrder fuel (permission w) orderInfo w)
  | Elapse ms => advance ms w
  end.

Definition perform_all (fuel : nat) (cs : list Call) (w : World) : World :=
  fold_left (fun w' c => perform fuel c w') cs w.

(** The toast a status change makes. *)
Definition status_toast_stored (orderInfo : OrderInfo) (w : World)
    : ToastNotification :=
  {| toast_id := Spec.toast_id_of (Date_now w) (Math_random w (draws w));
     toast_type := t_type (status_toast orderInfo);
     toast_title := t_title (status_toast orderInfo);
     toast_message := t_message (status_toast orderInfo);
     toast_timeout := Some 5000%Z |}.

(** The hook's permission cell holds what the browser has on record. *)
Definition in_sync (w : World) : Prop :=
  Notification_in_window w = true
  /\ permission w = Notification_permission w.

(** ToastContainer.tsx: the progress bar is drawn under
    [toast.timeout && toast.timeout > 0]. *)
Definition shows_progress (toast : ToastNotification) : bool :=
  match toast_timeout toast with
  | Some x => negb (Z.eqb x 0) && Z.ltb 0 x
  | None => false
  end.

(** The four severities ToastContainer.tsx has a style and an icon for. *)
Definition severities : list string := ["success"; "info"; "warning"; "error"].

End Alerts.

(** ** What the dashboard renders from its state *)

Module View.
Import Js Dashboard.

(** [String.prototype.includes]: the needle starts somewhere in the
    string. *)
Fixpoint includes (s needle : string) : bool :=
  prefix needle s
  || match s with
     | EmptyString => false
     | String _ rest => includes rest needle
     end.

Section Filter.

(** [String.prototype.toLowerCase], which the run time provides. *)
Variable toLowerCase : string -> string.

(** The predicate of [filteredOrders]; a missing tracking number makes the
    first alternative [undefined]. *)
Definition matches (searchTerm statusFilter : string) (order : ShippingOrder)
    : bool :=
  let matchesSearch :=
    match tracking_number order with
    | Some t => includes (toLowerCase t) (toLowerCase searchTerm)
    | None => false
    end
    || includes (toLowerCase (receiver_name order)) (toLowerCase searchTerm)
    || includes (toLowerCase (sender_name order)) (toLowerCase searchTerm) in
  let matchesStatus :=
    String.eqb statusFilter "all" || String.eqb (status order) statusFilter in
  matchesSearch && matchesStatus.

Definition filteredOrders (searchTerm statusFilter : string)
    (orders : list ShippingOrder) : list ShippingOrder :=
  filter (matches searchTerm statusFilter) orders.

End Filter.










End View.

(** ** The scheduler seen from outside *)

Module Schedule.
Import Dashboard.

(** The events that can start a refresh without a status update. *)
Inductive Trigger : Type :=
| Tick
| Visibility (hidden : bool)
| Manual
| Toggle.

Definition event_of (t : Trigger) : Event :=
  match t with
  | Tick => IntervalElapsed
  | Visibility hidden => VisibilityChange hidden
  | Manual => ManualRefresh
  | Toggle => ToggleAutoRefresh
  end.

(** The refreshes a sequence of triggers asks for, from the two flags
    alone. *)
Fixpoint expected_refreshes (enabled visible : bool) (ts : list Trigger) : nat :=
  match ts with
  | [] => 0
  | Tick :: rest =>
      (if enabled && visible then 1 else 0)
      + expected_refreshes enabled visible rest
  | Visibility hidden :: rest =>
      (if negb hidden && enabled then 1 else 0)
      + expected_refreshes enabled (negb hidden) rest
  | Manual :: rest => 1 + expected_refreshes enabled visible rest
  | Toggle :: rest => expected_refreshes (negb enabled) visible rest
  end.

Definition is_PATCH (r : Request) : bool := negb (is_GET r).

(** The three progress flags are all down. *)
Definition idle (w : World) : Prop :=
  loading (ui w) = false
  /\ isRefreshing (ui w) = false
  /\ isUpdatingStatus (modal w) = false.

End Schedule.

(** ** Assigning a tracking number (OrderDetailModal.tsx) *)

Module Tracking.
Import Js.
Local Open Scope js_scope.

(** The three fields of the form. *)
Record TrackingFormData : Type := {
  tracking_number : string;
  tracking_company : string;
  estimated_delivery : string
}.

(** What is posted to the backend; a blank company or date is sent as
    [undefined]. *)
Record TrackingData : Type := {
  sent_tracking_number : string;
  sent_tracking_company : option string;
  sent_estimated_delivery : option string
}.

(** The modal's form on top of the dashboard it belongs to: the two state
    cells of the form, the texts given to [alert], the assignments posted
    (oldest first), the backend's answer to the [n]-th of them ([None]: it
    is accepted), and the message the response of a thrown error carries,
    [error.response?.data?.message]. *)
Record World : Type := {
  dashboard : Dashboard.World;
  showTrackingForm : bool;
  trackingFormData : TrackingFormData;
  alerts : list string;
  assignments : list (Z * TrackingData);
  tracking_server : nat -> Z -> TrackingData -> option JsError;
  response_message : JsError -> option string
}.

Definition with_dashboard (d : Dashboard.World) (w : World) : World :=
  {| dashboard := d; showTrackingForm := showTrackingForm w;
     trackingFormData := trackingFormData w; alerts := alerts w;
     assignments := assignments w; tracking_server := tracking_server w;
     response_message := response_message w |}.

Definition setShowTrackingForm (b : bool) : M World unit :=
  modify (fun w =>
    {| dashboard := dashboard w; showTrackingForm := b;
       trackingFormData := trackingFormData w; alerts := alerts w;
       assignments := assignments w; tracking_server := tracking_server w;
       response_message := response_message w |}).

Definition setTrackingFormData (d : TrackingFormData) : M World unit :=
  modify (fun w =>
    {| dashboard := dashboard w; showTrackingForm := showTrackingForm w;
       trackingFormData := d; alerts := alerts w;
       assignments := assignments w; tracking_server := tracking_server w;
       response_message := response_message w |}).

Definition alert (text : string) : M World unit :=
  modify (fun w =>
    {| dashboard := dashboard w; showTrackingForm := showTrackingForm w;
       trackingFormData := trackingFormData w;
       alerts := (alerts w ++ [text])%list;
       assignments := assignments w; tracking_server := tracking_server w;
       response_message := response_message w |}).

(** [shippingAPI.assignTrackingNumber(id, trackingData)] *)
Definition assignTrackingNumber (id : Z) (data : TrackingData) : M World unit :=
  fun w =>
    let w' :=
      {| dashboard := dashboard w; showTrackingForm := showTrackingForm w;
         trackingFormData := trackingFormData w; alerts := alerts w;
         assignments := (assignments w ++ [(id, data)])%list;
         tracking_server := tracking_server w;
         response_message := response_message w |} in
    match tracking_server w (length (assignments w)) id data with
    | Some e => (Throw e, w')
    | None => (Return tt, w')
    end.

(** A handler of the dashboard run from the modal. *)
Definition lift {A} (m : M Dashboard.World A) : M World A :=
  fun w => let (r, d) := m (dashboard w) in (r, with_dashboard d w).

(** The [onTrackingAssigned] prop the dashboard passes. *)
Definition onTrackingAssigned : M World unit :=
  lift (Dashboard.fetchOrders true).

Definition console_error (label : string) (error : JsError) : M World unit :=
  lift (Dashboard.console_error label error).

(** [s || undefined] *)
Definition or_undefined (s : string) : option string :=
  match s with
  | EmptyString => None
  | _ => Some s
  end.

Section Assign.

(** [String.prototype.trim], which the run time provides. *)
Variable trim : string -> string.

Definition handleTrackingAssign (order : Dashboard.ShippingOrder) : M World unit :=
  form <- gets trackingFormData ;;
  match trim (tracking_number form) with
  | EmptyString => alert "운송장 번호를 입력해주세요."
  | _ =>
      try_catch
        (assignTrackingNumber (Dashboard.id order)
           {| sent_tracking_number := trim (tracking_number form);
              sent_tracking_company := or_undefined (trim (tracking_company form));
              sent_estimated_delivery := or_undefined (estimated_delivery form) |} ;;
         setShowTrackingForm false ;;
         setTrackingFormData
           {| tracking_number := ""; tracking_company := "";
              estimated_delivery := "" |} ;;
         onTrackingAssigned ;;
         alert "운송장 번호가 성공적으로 할당되었습니다.")
        (fun error =>
           console_error "운송장 할당 실패:" error ;;
           message <- gets (fun w => response_message w error) ;;
           alert (or_string message "운송장 할당 중 오류가 발생했습니다."))
  end.

End Assign.

(** A form as the user left it, over a dashboard that shows [order1] and
    [order2]. *)
Definition filled (number company : string)
    (answer : option JsError) (message : option string) : World :=
  {| dashboard := Spec.showing [Spec.order1; Spec.order2] (Some Spec.order1)
                    (Spec.server_serving [Spec.order1; Spec.order2]);
     showTrackingForm := true;
     trackingFormData := {| tracking_number := number;
                            tracking_company := company;
                            estimated_delivery := "" |};
     alerts := []; assignments := [];
     tracking_server := fun _ _ _ => answer;
     response_message := fun _ => message |}.

End Tracking.

(** ** The session (hooks/useAuth.ts, services/api.ts) *)

Module Session.
Import Js.

Record User : Type := {
  user_id : Z;
  username : string;
  name : string;
  role : option string
}.

(** How a request through the client ends: with the body of the response,
    or rejected, with the status of the response and the message in its
    body when there are any. *)
Inductive Reply (A : Type) : Type :=
| Ok (data : A)
| Failed (status : option Z) (message : option string).
Arguments Ok {A} data.
Arguments Failed {A} status message.

(** How a call of the hook ends: it returns, or it throws
    [new Error(message)]. *)
Inductive Settled : Type :=
| Resolved
| Thrown (message : string).

(** The two state cells of [useAuthProvider], the [jwt_token] entry of
    [localStorage], and the console. *)
Record World : Type := {
  user : option User;
  isLoading : bool;
  jwt_token : option string;
  console : list string
}.

Definition setUser (u : option User) (w : World) : World :=
  {| user := u; isLoading := isLoading w; jwt_token := jwt_token w;
     console := console w |}.

Definition setIsLoading (b : bool) (w : World) : World :=
  {| user := user w; isLoading := b; jwt_token := jwt_token w;
     console := console w |}.

Definition setToken (token : string) (w : World) : World :=
  {| user := user w; isLoading := isLoading w; jwt_token := Some token;
     console := console w |}.

Definition removeToken (w : World) : World :=
  {| user := user w; isLoading := isLoading w; jwt_token := None;
     console := console w |}.

Definition console_log (text : string) (w : World) : World :=
  {| user := user w; isLoading := isLoading w; jwt_token := jwt_token w;
     console := (console w ++ [text])%list |}.

(** [tokenAPI.isAuthenticated()]: [!!getToken()] *)
Definition isAuthenticated (w : World) : bool := truthy_string (jwt_token w).

(** The response interceptor of the client: a 401 or 403 removes the token;
    the rejection goes on. *)
Definition intercept {A} (reply : Reply A) (w : World) : World :=
  match reply with
  | Ok _ => w
  | Failed status _ =>
      match status with
      | Some code =>
          if Z.eqb code 401 || Z.eqb code 403
          then console_log "인증이 필요합니다." (removeToken w)
          else w
      | None => w
      end
  end.

(** The body of [/auth/me]. *)
Record MeData : Type := {
  authenticated : bool;
  me_user : option User
}.

(** The body of [/auth/login]. *)
Record LoginResponse : Type := {
  login_user : option User;
  login_token : option string
}.

(** [checkSession], given how [/auth/me] ends. *)
Definition checkSession (reply : Reply MeData) (w : World) : World :=
  let w1 := setIsLoading true w in
  let w2 := if isAuthenticated w1
            then console_log "JWT 토큰이 존재함, 서버에서 사용자 정보 확인" w1
            else w1 in
  let w3 := intercept reply w2 in
  let w4 :=
    match reply with
    | Ok response =>
        match authenticated response, me_user response with
        | true, Some u =>
            console_log ("사용자 인증 상태 확인됨: " ++ username u)
              (setUser (Some u) w3)
        | _, _ =>
            if isAuthenticated w3
            then removeToken (console_log "서버 인증 실패, JWT 토큰 제거" w3)
            else w3
        end
    | Failed _ _ =>
        removeToken
          (console_log "인증 실패 - 세션 또는 JWT 토큰 없음/만료됨" w3)
    end in
  setIsLoading false w4.

(** [authAPI.login] followed by the rest of [login], given how
    [/auth/login] ends. *)
Definition login (reply : Reply LoginResponse) (w : World) : Settled * World :=
  let w1 := intercept reply w in
  match reply with
  | Ok response =>
      let w2 := if truthy_string (login_token response)
                then setToken (interpolate (login_token response)) w1
                else w1 in
      match login_user response with
      | Some u =>
          let w3 := console_log ("로그인 성공: " ++ username u)
                      (setUser (Some u) w2) in
          (Resolved,
           if truthy_string (login_token response)
           then console_log "JWT 토큰 받음, localStorage에 저장됨" w3
           else w3)
      | None => (Resolved, w2)
      end
  | Failed _ message =>
      (Thrown (or_string message "로그인에 실패했습니다."), w1)
  end.

(** [authAPI.logout] followed by the rest of [logout], given how
    [/auth/logout] ends. *)
Definition logout (reply : Reply unit) (w : World) : World :=
  let w1 := intercept reply w in
  match reply with
  | Ok _ =>
      console_log "로그아웃 완료, JWT 토큰 제거됨"
        (setUser None (removeToken w1))
  | Failed _ _ =>
      setUser None (removeToken (console_log "로그아웃 오류:" w1))
  end.

(** What can happen to the session. *)
Inductive Step : Type :=
| CheckSession (reply : Reply MeData)
| Login (reply : Reply LoginResponse)
| Logout (reply : Reply unit).

Definition step (s : Step) (w : World) : World :=
  match s with
  | CheckSession reply => checkSession reply w
  | Login reply => snd (login reply w)
  | Logout reply => logout reply w
  end.

(** The reply does not confirm a user. *)
Definition unconfirmed (s : Step) : bool :=
  match s with
  | CheckSession (Ok response) =>
      negb (authenticated response
            && match me_user response with Some _ => true | None => false end)
  | Login (Ok response) =>
      match login_user response with Some _ => false | None => true end
  | _ => true
  end.

Definition run (steps : list Step) (w : World) : World :=
  fold_left (fun w' s => step s w') steps w.

(** The first render of the provider, with whatever token the browser
    kept. *)
Definition initialWorld (token : option string) : World :=
  {| user := None; isLoading := true; jwt_token := token; console := [] |}.

End Session.

(** ** The order form that raises new-order alerts (ShippingOrderForm.tsx) *)

Module OrderForm.
Import Js.

(** The fields of the submitted form that [onSubmit] reads. *)
Record FormData : Type := {
  receiver_name : string;
  package_description : option string;
  package_value : option Z
}.

(** The body [shippingAPI.createOrder] resolves to. *)
Record CreateResponse : Type := {
  orderId : option Z;
  trackingNumber : option string
}.

Record SubmitResult : Type := {
  success : bool;
  message : string;
  result_trackingNumber : option string
}.

(** The three state cells of the form, the calls of the [onNewOrder] prop
    (oldest first) and the delays after which [onSuccess] is due. *)
Record World : Type := {
  currentStep : Z;
  isSubmitting : bool;
  submitResult : option SubmitResult;
  alerted : list Alerts.NewOrderInfo;
  navigations : list Z
}.

Definition setCurrentStep (f : Z -> Z) (w : World) : World :=
  {| currentStep := f (currentStep w); isSubmitting := isSubmitting w;
     submitResult := submitResult w; alerted := alerted w;
     navigations := navigations w |}.

Definition setIsSubmitting (b : bool) (w : World) : World :=
  {| currentStep := currentStep w; isSubmitting := b;
     submitResult := submitResult w; alerted := alerted w;
     navigations := navigations w |}.

Definition setSubmitResult (r : option SubmitResult) (w : World) : World :=
  {| currentStep := currentStep w; isSubmitting := isSubmitting w;
     submitResult := r; alerted := alerted w;
     navigations := navigations w |}.

Definition onNewOrder (i : Alerts.NewOrderInfo) (w : World) : World :=
  {| currentStep := currentStep w; isSubmitting := isSubmitting w;
     submitResult := submitResult w; alerted := (alerted w ++ [i])%list;
     navigations := navigations w |}.

Definition setTimeout_onSuccess (delay : Z) (w : World) : World :=
  {| currentStep := currentStep w; isSubmitting := isSubmitting w;
     submitResult := submitResult w; alerted := alerted w;
     navigations := (navigations w ++ [delay])%list |}.

(** [nextStep], given what the validation of the step's fields says. *)
Definition nextStep (isValid : bool) (w : World) : World :=
  if isValid then setCurrentStep (fun prev => Z.min (prev + 1) 4) w else w.

Definition prevStep (w : World) : World :=
  setCurrentStep (fun prev => Z.max (prev - 1) 1) w.

(** An order id that is truthy: present and not 0. *)
Definition truthy_id (id : option Z) : option Z :=
  match id with
  | Some 0%Z | None => None
  | Some n => Some n
  end.

(** [onSubmit], given whether the two props are there and how
    [/shipping/orders] ends. *)
Definition onSubmit (has_onNewOrder has_onSuccess : bool) (data : FormData)
    (reply : Session.Reply CreateResponse) (w : World) : World :=
  let w1 := setIsSubmitting true w in
  let w2 :=
    match reply with
    | Session.Ok response =>
        let w3 := setSubmitResult
                    (Some {| success := true;
                             message := "배송접수가 완료되었습니다!";
                             result_trackingNumber := trackingNumber response |})
                    w1 in
        let w4 :=
          match truthy_id (orderId response) with
          | Some id =>
              if has_onNewOrder
              then onNewOrder
                     {| Alerts.new_orderId := id;
                        Alerts.new_customerName := receiver_name data;
                        Alerts.productName := package_description data;
                        Alerts.amount := package_value data |} w3
              else w3
          | None => w3
          end in
        if has_onSuccess then setTimeout_onSuccess 2000 w4 else w4
    | Session.Failed _ response_message =>
        setSubmitResult
          (Some {| success := false;
                   message := or_string response_message
                                "배송접수 처리 중 오류가 발생했습니다.";
                   result_trackingNumber := None |})
          w1
    end in
  setIsSubmitting false w2.

(** What the user does with the step buttons. *)
Inductive Move : Type :=
| Next (isValid : bool)
| Prev.

Definition move (m : Move) (w : World) : World :=
  match m with
  | Next isValid => nextStep isValid w
  | Prev => prevStep w
  end.

(** The first render of the form. *)
Definition initialWorld : World :=
  {| currentStep := 1; isSubmitting := false; submitResult := None;
     alerted := []; navigations := [] |}.

End OrderForm.

(** ** Facts about the dashboard *)

Section DashboardFacts.
Import Js Dashboard Spec.
Local Open Scope list_scope.

Ltac unfold_js :=
  unfold fetchOrders, handleStatusUpdate, handleStatusChange, onStatusUpdate,
    handleVisibilityChange, interval_callback, handleManualRefresh,
    toggleAutoRefresh, handleOrderClick, handleCloseModal,
    setOrders, setStats, setLoading, setSelectedOrder, setIsModalOpen,
    setIsAutoRefreshEnabled, setLastUpdated, setIsRefreshing,
    set_visibilityRef, setIsUpdatingStatus, setShowStatusDropdown,
    send, console_error, onOrderStatusChange,
    try_finally, try_catch, when, bind, ret, gets, modify, exec.

(** [filter] and [count_occ] count the same orders. *)
Lemma count_status_occurrences (s : string) (l : list ShippingOrder) :
  count_status s l = occurrences s l.
Proof.
  unfold count_status, occurrences.
  induction l as [|o l IH]; [reflexivity|].
  cbn [filter map count_occ].
  destruct (String.eqb_spec (status o) s) as [E|E];
    destruct (string_dec (status o) s) as [E'|E']; try contradiction.
  - cbn [length]. now rewrite IH.
  - exact IH.
Qed.

Lemma newStats_consistent (l : list ShippingOrder) (st : State) :
  orders st = l -> stats st = newStats l -> consistent st.
Proof.
  intros Ho Hs. unfold consistent. rewrite Ho, Hs. cbn.
  repeat split; apply count_status_occurrences.
Qed.

(** What one call of [fetchOrders] does, by the server's answer. *)
Lemma fetchOrders_fulfilled (b : bool) (w : World) (body : option (list ShippingOrder)) :
  server w (length (requests w)) GET_orders = Fulfilled body ->
  fst (fetchOrders b w) = Return tt
  /\ orders (ui (exec (fetchOrders b) w)) = ordersData body
  /\ stats (ui (exec (fetchOrders b) w)) = newStats (ordersData body)
  /\ requests (exec (fetchOrders b) w) = requests w ++ [GET_orders]
  /\ console (exec (fetchOrders b) w) = console w
  /\ notified (exec (fetchOrders b) w) = notified w.
Proof.
  intros H. unfold_js. destruct b; cbn; rewrite H; cbn; repeat split; reflexivity.
Qed.

Lemma fetchOrders_rejected (b : bool) (w : World) (e : JsError) :
  server w (length (requests w)) GET_orders = Rejected e ->
  fst (fetchOrders b w) = Return tt
  /\ orders (ui (exec (fetchOrders b) w)) = orders (ui w)
  /\ stats (ui (exec (fetchOrders b) w)) = stats (ui w)
  /\ requests (exec (fetchOrders b) w) = requests w ++ [GET_orders]
  /\ console (exec (fetchOrders b) w)
     = console w ++ [("주문 목록을 가져오는 중 오류 발생:", e)]
  /\ notified (exec (fetchOrders b) w) = notified w.
Proof.
  intros H. unfold_js. destruct b; cbn; rewrite H; cbn; repeat split; reflexivity.
Qed.

Ltac split_cases :=
  repeat match goal with
    | |- context [match server ?w ?n ?r with _ => _ end] =>
        destruct (server w n r) eqn:?; cbn
    | |- context [if ?b then _ else _] => destruct b eqn:?; cbn
    | |- context [match ?o with Some _ => _ | None => _ end] =>
        destruct o eqn:?; cbn
    end.

Lemma dispatch_snapshot_step (ev : Event) (w : World) :
  snapshot_step w (exec (dispatch ev) w).
Proof.
  unfold snapshot_step.
  destruct ev; repeat (progress (cbn; unfold_js; cbn; split_cases)); auto.
Qed.

Lemma snapshot_step_consistent (w w' : World) :
  snapshot_step w w' -> consistent (ui w) -> consistent (ui w').
Proof.
  intros [[Ho Hs]|Hs] Hc.
  - unfold consistent in *. now rewrite Ho, Hs.
  - now apply (newStats_consistent (orders (ui w'))).
Qed.

Lemma run_consistent (evs : list Event) (w : World) :
  consistent (ui w) -> consistent (ui (run evs w)).
Proof.
  revert w. induction evs as [|ev evs IH]; intros w Hc; [exact Hc|].
  cbn. apply IH.
  eapply snapshot_step_consistent; [apply dispatch_snapshot_step | exact Hc].
Qed.

Lemma initialState_consistent (t : Z) : consistent (initialState t).
Proof. repeat split. Qed.

(** *** Refresh *)

(** C6: when the backend rejects the list request of a refresh, the call
    still returns normally (nothing is rethrown), the order list, the counts
    and the rest of the component state except the two progress flags are
    what they were, the error goes to [console.error] once, and exactly one
    request was sent (no retry). *)
Theorem fetchOrders_failure_retains_snapshot
    (b : bool) (w : World) (e : JsError) :
  server w (length (requests w)) GET_orders = Rejected e ->
  fst (fetchOrders b w) = Return tt
  /\ orders (ui (exec (fetchOrders b) w)) = orders (ui w)
  /\ stats (ui (exec (fetchOrders b) w)) = stats (ui w)
  /\ selectedOrder (ui (exec (fetchOrders b) w)) = selectedOrder (ui w)
  /\ loading (ui (exec (fetchOrders b) w)) = false
  /\ isRefreshing (ui (exec (fetchOrders b) w)) = false
  /\ console (exec (fetchOrders b) w)
     = console w ++ [("주문 목록을 가져오는 중 오류 발생:", e)]
  /\ requests (exec (fetchOrders b) w) = requests w ++ [GET_orders]
  /\ notified (exec (fetchOrders b) w) = notified w.
Proof.
  intros H.
  destruct (fetchOrders_rejected b w e H) as (Hr & Ho & Hs & Hq & Hc & Hn).
  repeat split; try assumption.
  all: unfold_js; destruct b; cbn; rewrite H; reflexivity.
Qed.

Lemma fetchOrders_failure_retains_snapshot_witness :
  orders (ui (exec (fetchOrders true) (showing [order1; order2] None server_down)))
  = [order1; order2].
Proof.
  exact (proj1 (proj2 (fetchOrders_failure_retains_snapshot true
           (showing [order1; order2] None server_down) network_error eq_refl))).
Defined.

(** C7: in every state the dashboard reaches, by any sequence of refreshes
    (initial, scheduled, manual, on becoming visible, after a status update)
    and other events, with any answers of the backend, the stored total is
    the length of the stored list and each of the six stored counts is the
    number of stored orders with that status. *)
Theorem stats_consistent_with_orders
    (role : option string) (hidden : bool) (t : Z)
    (srv : nat -> Request -> Response) (evs : list Event) :
  consistent (ui (run evs (initialWorld role hidden t srv))).
Proof.
  apply run_consistent. apply initialState_consistent.
Qed.

(** The six counters and the orders with another status make up the list. *)
Lemma sum_of_counters_newStats (l : list ShippingOrder) :
  sum_of_counters (newStats l) + length (unrecognized_orders l) = length l.
Proof.
  unfold sum_of_counters, newStats, unrecognized_orders, count_status,
    recognized, recognized_statuses.
  cbn [total 접수완료 배송준비 배송중 배송완료 취소 반송 existsb].
  induction l as [|o l IH]; [reflexivity|].
  cbn [filter].
  destruct (String.eqb_spec (status o) "접수완료") as [E|_];
    [rewrite E; cbn; lia|].
  destruct (String.eqb_spec (status o) "배송준비") as [E|_];
    [rewrite E; cbn; lia|].
  destruct (String.eqb_spec (status o) "배송중") as [E|_];
    [rewrite E; cbn; lia|].
  destruct (String.eqb_spec (status o) "배송완료") as [E|_];
    [rewrite E; cbn; lia|].
  destruct (String.eqb_spec (status o) "취소") as [E|_];
    [rewrite E; cbn; lia|].
  destruct (String.eqb_spec (status o) "반송") as [_|_]; cbn; lia.
Qed.

Lemma unrecognized_orders_nonempty (l : list ShippingOrder) (o : ShippingOrder) :
  In o l -> recognized (status o) = false -> 0 < length (unrecognized_orders l).
Proof.
  intros Hin Hr.
  assert (Hf : In o (unrecognized_orders l)).
  { apply filter_In. split; [exact Hin | now rewrite Hr]. }
  destruct (unrecognized_orders l); [contradiction | cbn; lia].
Qed.

(** C10: after a refresh whose list request succeeds, the stored total is
    the length of the fetched list and each of the six counters is the
    number of fetched orders whose status is exactly that string; the six
    counters and the orders with any other status add up to the total, so
    as soon as one order has an unrecognized status the six counters sum to
    strictly less than the total. *)
Theorem refresh_total_and_exact_counters
    (b : bool) (w : World) (body : option (list ShippingOrder)) :
  server w (length (requests w)) GET_orders = Fulfilled body ->
  let l := ordersData body in
  let d := stats (ui (exec (fetchOrders b) w)) in
  orders (ui (exec (fetchOrders b) w)) = l
  /\ total d = length l
  /\ 접수완료 d = occurrences "접수완료" l
  /\ 배송준비 d = occurrences "배송준비" l
  /\ 배송중 d = occurrences "배송중" l
  /\ 배송완료 d = occurrences "배송완료" l
  /\ 취소 d = occurrences "취소" l
  /\ 반송 d = occurrences "반송" l
  /\ sum_of_counters d + length (unrecognized_orders l) = total d
  /\ (forall o, In o l -> recognized (status o) = false ->
      sum_of_counters d < total d).
Proof.
  intros H l d.
  destruct (fetchOrders_fulfilled b w body H) as (_ & Ho & Hs & _).
  fold l in Ho, Hs. subst d. rewrite Hs.
  split; [exact Ho|]. split; [reflexivity|].
  repeat (split; [apply count_status_occurrences|]).
  pose proof (sum_of_counters_newStats l) as Hsum.
  split; [exact Hsum|].
  intros o Hin Hr.
  pose proof (unrecognized_orders_nonempty l o Hin Hr).
  change (total (newStats l)) with (length l). lia.
Qed.

Lemma refresh_total_and_exact_counters_witness :
  let d := stats (ui (exec (fetchOrders true)
                        (showing [] None (server_serving [order1; order3])))) in
  total d = 2 /\ sum_of_counters d < total d.
Proof.
  pose proof (refresh_total_and_exact_counters true
                (showing [] None (server_serving [order1; order3]))
                (Some [order1; order3]) eq_refl) as H.
  cbv zeta in H.
  destruct H as (_ & Ht & _ & _ & _ & _ & _ & _ & _ & Hlt).
  split; [exact Ht|].
  apply (Hlt order3); [right; left; reflexivity | reflexivity].
Defined.

(** *** Status update *)

Lemma length_snoc {A} (l : list A) (x : A) : length (l ++ [x]) = S (length l).
Proof. rewrite length_app. cbn. lia. Qed.

(** C2, amended: when the backend accepts the status update, the handler
    does not patch the snapshot; it awaits a full refresh.  Exactly the
    update and one list request are sent; if the list request succeeds the
    snapshot becomes the fetched list with the counts computed from it,
    whatever that list says about any order; if it fails the snapshot stays
    as it was.  Only the order open in the modal gets the new status written
    into it, when its id is the updated one. *)
Theorem status_update_success_refetches
    (w : World) (orderId : Z) (s : string) (ack : option (list ShippingOrder)) :
  server w (length (requests w)) (PATCH_status orderId s) = Fulfilled ack ->
  let w' := exec (handleStatusUpdate orderId s) w in
  fst (handleStatusUpdate orderId s w) = Return tt
  /\ requests w' = requests w ++ [PATCH_status orderId s; GET_orders]
  /\ (forall body,
        server w (S (length (requests w))) GET_orders = Fulfilled body ->
        orders (ui w') = ordersData body
        /\ stats (ui w') = newStats (ordersData body))
  /\ (forall e,
        server w (S (length (requests w))) GET_orders = Rejected e ->
        orders (ui w') = orders (ui w) /\ stats (ui w') = stats (ui w))
  /\ selectedOrder (ui w')
     = match selectedOrder (ui w) with
       | Some sel =>
           if Z.eqb (id sel) orderId then Some (with_status sel s) else Some sel
       | None => None
       end.
Proof.
  destruct w as [[os st ld so mo en lu rf vr] md rl cb hd nw sv rq cs nt].
  cbn. intros H.
  unfold handleStatusUpdate, exec, try_catch, bind, gets, send, when, ret.
  cbn. rewrite H. cbn. unfold_js. cbn. rewrite !length_snoc.
  destruct (sv (S (length rq)) GET_orders) as [e|body] eqn:G; cbn;
    destruct so as [sel|]; cbn;
    try destruct (Z.eqb (id sel) orderId); cbn;
    destruct cb; cbn;
    rewrite <- ?app_assoc; cbn;
    (split; [reflexivity|]); (split; [reflexivity|]);
    (split; [intros ? E; inversion E; subst; split; reflexivity|]);
    (split; [intros ? E; inversion E; subst; split; reflexivity|]);
    reflexivity.
Qed.

Lemma status_update_success_refetches_witness :
  orders (ui (exec (handleStatusUpdate 1 "배송완료")
                (showing [order1; order2] (Some order1)
                   (server_serving [order3]))))
  = [order3].
Proof.
  pose proof (status_update_success_refetches
                (showing [order1; order2] (Some order1) (server_serving [order3]))
                1 "배송완료" (Some [order3]) eq_refl) as H.
  cbv zeta in H.
  destruct H as (_ & _ & Hok & _).
  exact (proj1 (Hok (Some [order3]) eq_refl)).
Defined.

(** C2 as stated fails: after an accepted update the snapshot is not the
    old one with the status of that one order replaced.  When the list
    request that follows is rejected, order 1 keeps its old status; when it
    is answered with a list in which order 2 has changed too, order 2
    changes in the snapshot. *)
Lemma status_update_not_a_patch :
  let stale := showing [order1; order2] (Some order1) server_update_only in
  let moved := showing [order1; order2] (Some order1)
                 (server_serving [with_status order1 "배송완료";
                                  with_status order2 "취소"]) in
  server stale 0 (PATCH_status 1 "배송완료") = Fulfilled None
  /\ orders (ui (exec (handleStatusUpdate 1 "배송완료") stale))
     <> patchStatus 1 "배송완료" (orders (ui stale))
  /\ orders (ui (exec (handleStatusUpdate 1 "배송완료") stale)) = [order1; order2]
  /\ orders (ui (exec (handleStatusUpdate 1 "배송완료") moved))
     <> patchStatus 1 "배송완료" (orders (ui moved))
  /\ nth_error (orders (ui (exec (handleStatusUpdate 1 "배송완료") moved))) 1
     = Some (with_status order2 "취소").
Proof.
  cbv zeta. repeat split; try reflexivity.
  - vm_compute. intros E. discriminate E.
  - vm_compute. intros E. discriminate E.
Qed.

(** C4, amended: when the backend rejects the status update, the handler
    catches the error and logs it; its call returns normally, so nothing
    reaches the caller.  No list request is sent, no notification is
    requested, and the component state, the order list and the counts
    included, is exactly what it was. *)
Theorem status_update_failure_logged_not_propagated
    (w : World) (orderId : Z) (s : string) (e : JsError) :
  server w (length (requests w)) (PATCH_status orderId s) = Rejected e ->
  let w' := exec (handleStatusUpdate orderId s) w in
  fst (handleStatusUpdate orderId s w) = Return tt
  /\ ui w' = ui w
  /\ console w' = console w ++ [("상태 업데이트 실패:", e)]
  /\ requests w' = requests w ++ [PATCH_status orderId s]
  /\ notified w' = notified w.
Proof.
  intros H w'. subst w'.
  unfold handleStatusUpdate, exec, try_catch, bind, gets, send, console_error.
  cbn. rewrite H. cbn. destruct w as [u m r c h n sv rq cs nt]. cbn.
  repeat split; reflexivity.
Qed.

Lemma status_update_failure_logged_not_propagated_witness :
  ui (exec (handleStatusUpdate 1 "배송완료")
        (showing [order1; order2] (Some order1) server_down))
  = ui (showing [order1; order2] (Some order1) server_down).
Proof.
  exact (proj1 (proj2 (status_update_failure_logged_not_propagated
           (showing [order1; order2] (Some order1) server_down)
           1 "배송완료" network_error eq_refl))).
Defined.

(** C4 as stated fails: a rejected update is not thrown to the caller.
    [handleStatusUpdate] returns normally, and [handleStatusChange] of the
    modal, which awaits it, goes on as after a success: it folds the status
    menu and its own [catch] logs nothing. *)
Lemma status_update_error_not_thrown :
  let w := showing [order1; order2] (Some order1) server_down in
  server w 0 (PATCH_status 1 "배송완료") = Rejected network_error
  /\ fst (handleStatusUpdate 1 "배송완료" w) <> Throw network_error
  /\ fst (handleStatusUpdate 1 "배송완료" w) = Return tt
  /\ showStatusDropdown (modal w) = true
  /\ showStatusDropdown (modal (exec (handleStatusChange order1 "배송완료") w))
     = false
  /\ console (exec (handleStatusChange order1 "배송완료") w)
     = [("상태 업데이트 실패:", network_error)].
Proof.
  cbv zeta. repeat split; try reflexivity.
  vm_compute. intros E. discriminate E.
Qed.

(** *** Scheduler *)

Lemma fetchOrders_refreshes (b : bool) (w : World) :
  refreshes (exec (fetchOrders b) w) = S (refreshes w).
Proof.
  assert (H : requests (exec (fetchOrders b) w) = requests w ++ [GET_orders]).
  { destruct (server w (length (requests w)) GET_orders) as [e|body] eqn:G.
    - apply (fetchOrders_rejected b w e G).
    - apply (fetchOrders_fulfilled b w body G). }
  unfold refreshes. rewrite H, filter_app, length_app. cbn. lia.
Qed.

Lemma fetchOrders_keeps_flags (b : bool) (w : World) :
  isAutoRefreshEnabled (ui (exec (fetchOrders b) w)) = isAutoRefreshEnabled (ui w)
  /\ visibilityRef (ui (exec (fetchOrders b) w)) = visibilityRef (ui w)
  /\ document_hidden (exec (fetchOrders b) w) = document_hidden w.
Proof.
  unfold_js. destruct b; cbn; split_cases; repeat split; reflexivity.
Qed.

(** The listener brings the flag in line with the document. *)
Lemma visibility_change_synced (hidden : bool) (w : World) :
  synced (exec (dispatch (VisibilityChange hidden)) w)
  /\ document_hidden (exec (dispatch (VisibilityChange hidden)) w) = hidden
  /\ isAutoRefreshEnabled (ui (exec (dispatch (VisibilityChange hidden)) w))
     = isAutoRefreshEnabled (ui w).
Proof.
  unfold synced.
  repeat (progress (cbn; unfold_js; cbn; split_cases)); repeat split; reflexivity.
Qed.

Lemma dispatch_keeps_synced (ev : Event) (w : World) :
  synced w -> synced (exec (dispatch ev) w).
Proof.
  unfold synced. intros H.
  destruct ev; repeat (progress (cbn; unfold_js; cbn; split_cases));
    auto; congruence.
Qed.

(** Once the flag agrees with the document, a period that elapses while the
    page is hidden changes nothing. *)
Lemma interval_hidden_no_refresh (w : World) :
  synced w -> document_hidden w = true ->
  exec (dispatch IntervalElapsed) w = w.
Proof.
  unfold synced. intros Hs Hh. rewrite Hh in Hs.
  cbn. unfold interval_callback, exec, bind, gets, when, ret. cbn.
  destruct (isAutoRefreshEnabled (ui w)); cbn; [rewrite Hs|]; reflexivity.
Qed.

Lemma became_hidden_no_refresh (w : World) :
  refreshes (exec (dispatch (VisibilityChange true)) w) = refreshes w.
Proof.
  cbn. unfold_js. cbn. reflexivity.
Qed.

(** Becoming visible while auto-refresh is on starts exactly one refresh. *)
Lemma became_visible_one_refresh (w : World) :
  isAutoRefreshEnabled (ui w) = true ->
  refreshes (exec (dispatch (VisibilityChange false)) w) = S (refreshes w).
Proof.
  intros He.
  unfold dispatch, handleVisibilityChange, exec, bind, gets, modify,
    set_visibilityRef, when.
  cbn. rewrite He. cbn.
  match goal with
  | |- refreshes (snd (fetchOrders true ?w0)) = _ =>
      change (refreshes (exec (fetchOrders true) w0) = S (refreshes w));
      rewrite (fetchOrders_refreshes true w0)
  end.
  reflexivity.
Qed.

Lemma run_app (evs1 evs2 : list Event) (w : World) :
  run (evs1 ++ evs2) w = run evs2 (run evs1 w).
Proof. unfold run. apply fold_left_app. Qed.

Lemma run_intervals_hidden (n : nat) (w : World) :
  synced w -> document_hidden w = true ->
  run (repeat IntervalElapsed n) w = w.
Proof.
  intros Hs Hh. induction n as [|n IH]; [reflexivity|].
  cbn [repeat]. change (run (IntervalElapsed :: repeat IntervalElapsed n) w)
    with (run (repeat IntervalElapsed n) (exec (dispatch IntervalElapsed) w)).
  now rewrite (interval_hidden_no_refresh w Hs Hh).
Qed.

(** However long the page stays hidden, hiding it and showing it again
    costs one refresh: 35 s hidden span three periods and give one. *)
Lemma hidden_then_visible_one_refresh (ms : Z) (w : World) :
  isAutoRefreshEnabled (ui w) = true ->
  refreshes (run (hidden_for ms) w) = S (refreshes w).
Proof.
  intros He. unfold hidden_for.
  change (run (VisibilityChange true :: ?l) w)
    with (run l (exec (dispatch (VisibilityChange true)) w)).
  destruct (visibility_change_synced true w) as (Hs & Hh & Hen).
  rewrite run_app, (run_intervals_hidden _ _ Hs Hh).
  change (run [VisibilityChange false] ?w0)
    with (exec (dispatch (VisibilityChange false)) w0).
  rewrite became_visible_one_refresh by (now rewrite Hen).
  now rewrite became_hidden_no_refresh.
Qed.

Lemma hidden_35_seconds_one_refresh (w : World) :
  isAutoRefreshEnabled (ui w) = true ->
  hidden_for 35000
  = [VisibilityChange true; IntervalElapsed; IntervalElapsed; IntervalElapsed;
     VisibilityChange false]
  /\ refreshes (run (hidden_for 35000) w) = S (refreshes w).
Proof.
  intros He. split; [reflexivity|]. now apply hidden_then_visible_one_refresh.
Qed.

(** C5, at the input on which the code departs from it: a dashboard that is
    mounted while the document is hidden.  [visibilityRef] starts as [true]
    and only the listener corrects it, so with no visibility change yet the
    period that elapses finds the flag set and refreshes, with the page
    hidden before and after. *)
Theorem interval_refreshes_when_mounted_hidden
    (role : option string) (t : Z) (srv : nat -> Request -> Response) :
  let w := run [Mount] (initialWorld role true t srv) in
  document_hidden w = true
  /\ isAutoRefreshEnabled (ui w) = true
  /\ visibilityRef (ui w) = true
  /\ document_hidden (run [IntervalElapsed] w) = true
  /\ refreshes (run [IntervalElapsed] w) = S (refreshes w).
Proof.
  cbv zeta.
  change (run [Mount] ?w0) with (exec (fetchOrders false) w0).
  destruct (fetchOrders_keeps_flags false (initialWorld role true t srv))
    as (He & Hv & Hh).
  cbn in He, Hv, Hh.
  split; [exact Hh|]. split; [exact He|]. split; [exact Hv|].
  set (w := exec (fetchOrders false) (initialWorld role true t srv)) in *.
  assert (Hstep : run [IntervalElapsed] w = exec (fetchOrders true) w).
  { cbn. unfold exec at 1, bind, gets, when, interval_callback.
    cbn. rewrite He. unfold bind, gets, when. cbn. rewrite Hv. reflexivity. }
  rewrite Hstep. split.
  - now rewrite (proj2 (proj2 (fetchOrders_keeps_flags true w))).
  - apply fetchOrders_refreshes.
Qed.

End DashboardFacts.

(** ** Facts about the notification hook *)

Section NotificationFacts.
Import Js Notification Spec.
Local Open Scope list_scope.

Ltac unfold_hook :=
  unfold current_showBrowserNotification, requestPermission, setPermission,
    Notification_requestPermission, new_Notification, notification_close,
    setTimeout, Math_random_toString36, showToast, removeToast, clearToasts,
    setToasts, mount, when, bind, ret, gets, modify.

(** *** Permission and OS notifications *)

(** With the captured permission [granted], one notification goes out. *)
Lemma showBrowserNotification_granted
    (fuel : nat) (options : NotificationOptions) (w : World) :
  Notification_in_window w = true ->
  fst (showBrowserNotification fuel granted options w)
  = Return (Some (length (displayed w)))
  /\ displayed (snd (showBrowserNotification fuel granted options w))
     = displayed w
       ++ [{| n_title := title options; n_body := body options;
              n_icon := or_string (icon options) "/favicon.ico";
              n_tag := tag options;
              n_requireInteraction :=
                match requireInteraction options with
                | Some b => b
                | None => false
                end |}]
  /\ requestPermission_calls (snd (showBrowserNotification fuel granted options w))
     = requestPermission_calls w.
Proof.
  intros Ha. destruct fuel; cbn; rewrite Ha; cbn; unfold_hook; cbn;
    (destruct (timeout options) as [t|]; cbn;
     [destruct (Z.eqb t 0); cbn|]; repeat split; reflexivity).
Qed.

(** With the captured permission [denied], nothing happens. *)
Lemma showBrowserNotification_denied
    (fuel : nat) (options : NotificationOptions) (w : World) :
  showBrowserNotification fuel denied options w = (Return None, w).
Proof.
  destruct fuel; cbn; rewrite andb_false_r; reflexivity.
Qed.

(** With the captured permission [default] and a request that does not end
    in [granted]: one request, no notification, no error. *)
Lemma showBrowserNotification_default_refused
    (fuel : nat) (options : NotificationOptions) (w : World) :
  fst (requestPermission w) <> Return granted ->
  fst (showBrowserNotification fuel default options w) = Return None
  /\ displayed (snd (showBrowserNotification fuel default options w))
     = displayed w
  /\ requestPermission_calls (snd (showBrowserNotification fuel default options w))
     = requestPermission_calls w
       + (if Notification_in_window w then 1 else 0).
Proof.
  intros Hr.
  destruct fuel; cbn; rewrite andb_false_r; unfold bind;
    revert Hr; unfold_hook; cbn;
    (destruct (Notification_in_window w); cbn;
     [ destruct (Notification_permission w); cbn;
       [ destruct (user_answer w (prompts w)); cbn | | ] | ];
     intros Hr; try (exfalso; apply Hr; reflexivity);
     repeat split; cbn; lia).
Qed.

Lemma requestPermission_granting (w : World) :
  granting w ->
  fst (requestPermission w) = Return granted
  /\ granting (snd (requestPermission w))
  /\ permission (snd (requestPermission w)) = granted
  /\ displayed (snd (requestPermission w)) = displayed w
  /\ requestPermission_calls (snd (requestPermission w))
     = S (requestPermission_calls w).
Proof.
  intros (Ha & [Hg | (Hd & Hu)]); unfold granting, requestPermission, bind, gets;
    cbn; rewrite Ha; unfold_hook; cbn.
  - rewrite Hg. cbn. repeat split; auto.
  - rewrite Hd. cbn. rewrite Hu. cbn. repeat split; auto.
Qed.

Lemma showBrowserNotification_default_eq
    (fuel : nat) (options : NotificationOptions) (w : World) :
  showBrowserNotification fuel default options w
  = bind requestPermission
      (fun newPermission =>
         if permission_eqb newPermission granted then
           match fuel with
           | S fuel' => showBrowserNotification fuel' default options
           | O => fun w' => (Pending, w')
           end
         else ret None) w.
Proof.
  destruct fuel; cbn; rewrite andb_false_r; reflexivity.
Qed.

(** The retry chain with a request that keeps resolving to [granted]. *)
Lemma showBrowserNotification_retry_chain
    (fuel : nat) (options : NotificationOptions) (w : World) :
  granting w ->
  fst (showBrowserNotification fuel default options w) = Pending
  /\ displayed (snd (showBrowserNotification fuel default options w))
     = displayed w
  /\ requestPermission_calls (snd (showBrowserNotification fuel default options w))
     = requestPermission_calls w + S fuel
  /\ permission (snd (showBrowserNotification fuel default options w)) = granted.
Proof.
  revert w. induction fuel as [|fuel IH]; intros w Hg;
    rewrite showBrowserNotification_default_eq; unfold bind;
    destruct (requestPermission_granting w Hg) as (Hr & Hg' & Hp & Hd & Hc);
    destruct (requestPermission w) as [r w1]; cbn in Hr, Hg', Hp, Hd, Hc;
    subst r; cbn [permission_eqb].
  - cbn. repeat split; auto. lia.
  - destruct (IH w1 Hg') as (Ir & Id & Ic & Ip).
    repeat split; auto; try congruence. rewrite Ic, Hc. lia.
Qed.

(** C1, at the input on which the code departs from it: the permission
    state is [default] when the callback is created and the request resolves
    to [granted].  The retry re-enters the same callback, which still holds
    [default], so it requests again instead of delivering: whatever the depth
    allowed, the call has not settled, no notification has been shown, and
    every level has made one more request. *)
Theorem showBrowserNotification_retry_never_delivers
    (fuel : nat) (options : NotificationOptions) (w : World) :
  permission w = default ->
  granting w ->
  fst (current_showBrowserNotification fuel options w) = Pending
  /\ displayed (snd (current_showBrowserNotification fuel options w))
     = displayed w
  /\ requestPermission_calls (snd (current_showBrowserNotification fuel options w))
     = requestPermission_calls w + S fuel.
Proof.
  intros Hp Hg. unfold current_showBrowserNotification. rewrite Hp.
  destruct (showBrowserNotification_retry_chain fuel options w Hg)
    as (Hr & Hd & Hc & _).
  repeat split; assumption.
Qed.

Lemma showBrowserNotification_retry_never_delivers_witness :
  fst (current_showBrowserNotification 7 options_X_Y (mounted default granted))
  = Pending
  /\ displayed (snd (current_showBrowserNotification 7 options_X_Y
                       (mounted default granted))) = []
  /\ requestPermission_calls
       (snd (current_showBrowserNotification 7 options_X_Y
               (mounted default granted))) = 8.
Proof.
  apply (showBrowserNotification_retry_never_delivers 7 options_X_Y
           (mounted default granted)).
  - reflexivity.
  - split; [reflexivity | right; split; reflexivity].
Defined.

(** The same input seen from [notifyOrderStatusChange], which awaits the
    notification before it makes the toast: the toast is never made. *)
Lemma notifyOrderStatusChange_retry_no_toast
    (fuel : nat) (orderInfo : OrderInfo) (w : World) :
  granting w ->
  fst (notifyOrderStatusChange fuel default orderInfo w) = Pending
  /\ toasts (snd (notifyOrderStatusChange fuel default orderInfo w)) = toasts w
  /\ displayed (snd (notifyOrderStatusChange fuel default orderInfo w))
     = displayed w.
Proof.
  intros Hg. unfold notifyOrderStatusChange, bind.
  assert (Ht : forall n w0,
             toasts (snd (showBrowserNotification n default
                            (status_notification orderInfo) w0)) = toasts w0).
  { induction n as [|n IH]; intros w0;
      rewrite showBrowserNotification_default_eq; unfold bind;
      unfold_hook; cbn;
      destruct (Notification_in_window w0); cbn; try reflexivity;
      destruct (Notification_permission w0); cbn; try reflexivity;
      try destruct (user_answer w0 (prompts w0)); cbn; try reflexivity;
      rewrite IH; reflexivity. }
  specialize (Ht fuel w).
  destruct (showBrowserNotification_retry_chain fuel
              (status_notification orderInfo) w Hg) as (Hr & Hd & _).
  destruct (showBrowserNotification fuel default
              (status_notification orderInfo) w) as [r w1].
  cbn in Hr, Hd, Ht. subst r. cbn. repeat split; assumption.
Qed.

(** The scenario of the specification: the permission is requested first
    and granted, the hook renders again, and a call of the new callback
    shows exactly one notification. *)
Lemma granted_then_show_delivers_one
    (fuel : nat) (options : NotificationOptions) (w : World) :
  granting w ->
  let w1 := snd (requestPermission w) in
  fst (current_showBrowserNotification fuel options w1)
  = Return (Some (length (displayed w)))
  /\ displayed (snd (current_showBrowserNotification fuel options w1))
     = displayed w ++ [shown options]
  /\ requestPermission_calls (snd (current_showBrowserNotification fuel options w1))
     = S (requestPermission_calls w).
Proof.
  intros Hg w1. subst w1.
  destruct (requestPermission_granting w Hg) as (_ & (Ha & _) & Hp & Hd & Hc).
  unfold current_showBrowserNotification. rewrite Hp.
  destruct (showBrowserNotification_granted fuel options _ Ha) as (Sr & Sd & Sc).
  rewrite Sr, Sd, Sc, Hd, Hc. repeat split; reflexivity.
Qed.

Lemma scenario_X_Y_one_notification :
  let w1 := snd (requestPermission (mounted default granted)) in
  permission (mounted default granted) = default
  /\ map n_title (displayed (snd (current_showBrowserNotification 0 options_X_Y w1)))
     = ["X"].
Proof. split; reflexivity. Qed.

(** *** Toasts *)

(** The id and the stored toast, whatever the timeout asked for. *)
Lemma showToast_id (toast : ToastInput) (w : World) :
  fst (showToast toast w)
  = Return (toast_id_of (Date_now w) (Math_random w (draws w))).
Proof.
  unfold showToast, toast_id_of. unfold_hook. cbn.
  destruct (t_timeout toast) as [[|x|x]|]; reflexivity.
Qed.

(** No timeout given: the toast gets 5,000 ms and its removal is set. *)
Lemma showToast_default_timeout (ty ti : option string) (msg : string) (w : World) :
  let toast := {| t_type := ty; t_title := ti; t_message := msg;
                  t_timeout := None |} in
  let id := toast_id_of (Date_now w) (Math_random w (draws w)) in
  toasts (snd (showToast toast w))
  = toasts w ++ [{| toast_id := id; toast_type := ty; toast_title := ti;
                    toast_message := msg; toast_timeout := Some 5000%Z |}]
  /\ timers (snd (showToast toast w)) = timers w ++ [(5000%Z, RemoveToast id)].
Proof. split; reflexivity. Qed.

(** A negative timeout is kept and no removal is set. *)
Lemma showToast_negative_timeout
    (ty ti : option string) (msg : string) (x : Z) (w : World) :
  (x < 0)%Z ->
  let toast := {| t_type := ty; t_title := ti; t_message := msg;
                  t_timeout := Some x |} in
  let id := toast_id_of (Date_now w) (Math_random w (draws w)) in
  toasts (snd (showToast toast w))
  = toasts w ++ [{| toast_id := id; toast_type := ty; toast_title := ti;
                    toast_message := msg; toast_timeout := Some x |}]
  /\ timers (snd (showToast toast w)) = timers w.
Proof.
  intros Hx. destruct x as [|x|x]; try lia. split; reflexivity.
Qed.


(** Timers only ever take toasts away. *)
Lemma present_removeToast_same (id : string) (w : World) :
  present id (snd (removeToast id w)) = false.
Proof.
  unfold present, removeToast, setToasts, modify. cbn.
  induction (toasts w) as [|toast l IH]; [reflexivity|].
  cbn. destruct (String.eqb (toast_id toast) id) eqn:E; cbn; [exact IH|].
  now rewrite E.
Qed.

Lemma present_removeToast_other (id id' : string) (w : World) :
  id' <> id -> present id (snd (removeToast id' w)) = present id w.
Proof.
  intros Hne. unfold present, removeToast, setToasts, modify. cbn.
  induction (toasts w) as [|toast l IH]; [reflexivity|].
  cbn. destruct (String.eqb_spec (toast_id toast) id') as [E|E]; cbn.
  - destruct (String.eqb_spec (toast_id toast) id) as [E'|E']; [congruence|].
    exact IH.
  - now rewrite IH.
Qed.

Lemma present_fire_absent (id : string) (action : TimerAction) (w : World) :
  present id w = false -> present id (snd (fire action w)) = false.
Proof.
  intros Ha. destruct action as [k|id']; [exact Ha|].
  unfold fire. destruct (String.eqb_spec id' id) as [E|E].
  - subst. apply present_removeToast_same.
  - now rewrite present_removeToast_other.
Qed.

Lemma present_fire_all_absent
    (id : string) (ready : list (Z * TimerAction)) (w : World) :
  present id w = false ->
  present id (fold_left (fun w' timer => snd (fire (snd timer) w')) ready w)
  = false.
Proof.
  revert w. induction ready as [|timer ready IH]; intros w Ha; [exact Ha|].
  cbn [fold_left]. apply IH. now apply present_fire_absent.
Qed.

(** A due removal takes its toast away. *)
Lemma present_fire_all_removed
    (id : string) (ready : list (Z * TimerAction)) (w : World) :
  (exists d, In (d, RemoveToast id) ready) ->
  present id (fold_left (fun w' timer => snd (fire (snd timer) w')) ready w)
  = false.
Proof.
  revert w. induction ready as [|timer ready IH]; intros w [d Hin];
    [contradiction|].
  cbn [fold_left]. destruct Hin as [E|Hin].
  - subst timer. cbn [snd fire].
    apply present_fire_all_absent, present_removeToast_same.
  - apply IH. now exists d.
Qed.

(** A toast for which no removal is pending stays when the others fire. *)
Lemma present_fire_all_kept
    (id : string) (ready : list (Z * TimerAction)) (w : World) :
  (forall d, ~ In (d, RemoveToast id) ready) ->
  present id (fold_left (fun w' timer => snd (fire (snd timer) w')) ready w)
  = present id w.
Proof.
  revert w. induction ready as [|[d action] ready IH]; intros w Hno;
    [reflexivity|].
  cbn [fold_left snd].
  rewrite IH by (intros d' Hin; apply (Hno d'); now right).
  destruct action as [k|id']; [reflexivity|].
  unfold fire. apply present_removeToast_other.
  intros E. subst. apply (Hno d). now left.
Qed.

Lemma removal_scheduled_false (id : string) (w : World) :
  removal_scheduled id w = false -> forall d, ~ In (d, RemoveToast id) (timers w).
Proof.
  unfold removal_scheduled. intros Hf d Hin.
  assert (Ht : existsb (fun timer =>
                 match snd timer with
                 | RemoveToast id' => String.eqb id' id
                 | CloseNotification _ => false
                 end) (timers w) = true).
  { apply existsb_exists. exists (d, RemoveToast id). split; [exact Hin|].
    cbn. apply String.eqb_refl. }
  congruence.
Qed.

(** Without a pending removal a toast survives any lapse of time. *)
Lemma advance_keeps_unscheduled (id : string) (ms : Z) (w : World) :
  removal_scheduled id w = false ->
  present id (advance ms w) = present id w
  /\ removal_scheduled id (advance ms w) = false.
Proof.
  intros Hf. pose proof (removal_scheduled_false id w Hf) as Hno.
  unfold advance. split.
  - rewrite present_fire_all_kept; [reflexivity|].
    intros d Hin. apply filter_In in Hin. apply (Hno d), Hin.
  - set (w1 := with_clock _ _).
    assert (Hw1 : removal_scheduled id w1 = false).
    { unfold removal_scheduled, w1. cbn.
      destruct (existsb _ (map _ _)) eqn:E; [|reflexivity].
      apply existsb_exists in E. destruct E as ([d a] & Hin & Ha).
      apply in_map_iff in Hin. destruct Hin as ([d0 a0] & Heq & Hin).
      cbn in Heq. inversion Heq; subst. apply filter_In in Hin.
      destruct a as [k|id']; [discriminate|]. cbn in Ha.
      apply String.eqb_eq in Ha. subst. exfalso. apply (Hno d0), Hin. }
    clearbody w1. revert w1 Hw1.
    induction (filter (due ms) (timers w)) as [|[d a] l IH]; intros w1 Hw1;
      [exact Hw1|].
    cbn. apply IH. destruct a; exact Hw1.
Qed.

(** C3, at the input on which the code departs from it: a toast asked for
    with timeout 0.  [toast.timeout || 5000] takes 0 for a missing value, so
    the toast is stored with 5,000 ms and its removal is set; 5,000 ms later
    it is gone without anybody removing it. *)
Theorem showToast_zero_timeout_expires
    (ty ti : option string) (msg : string) (w : World) :
  let toast := {| t_type := ty; t_title := ti; t_message := msg;
                  t_timeout := Some 0%Z |} in
  let id := toast_id_of (Date_now w) (Math_random w (draws w)) in
  let w' := snd (showToast toast w) in
  fst (showToast toast w) = Return id
  /\ toasts w'
     = toasts w ++ [{| toast_id := id; toast_type := ty; toast_title := ti;
                       toast_message := msg; toast_timeout := Some 5000%Z |}]
  /\ timers w' = timers w ++ [(5000%Z, RemoveToast id)]
  /\ removal_scheduled id w' = true
  /\ present id w' = true
  /\ present id (advance 5000 w') = false.
Proof.
  cbv zeta. split; [reflexivity|]. split; [reflexivity|]. split; [reflexivity|].
  set (id := toast_id_of (Date_now w) (Math_random w (draws w))).
  assert (Hshow : snd (showToast {| t_type := ty; t_title := ti;
                                    t_message := msg; t_timeout := Some 0%Z |} w)
                  = with_timers (timers w ++ [(5000%Z, RemoveToast id)])
                      (with_toasts (fun prev => prev ++
                         [{| toast_id := id; toast_type := ty; toast_title := ti;
                             toast_message := msg; toast_timeout := Some 5000%Z |}])
                         (with_draws (S (draws w)) w))) by reflexivity.
  rewrite Hshow. unfold removal_scheduled, present. cbn.
  rewrite !existsb_app. cbn. rewrite String.eqb_refl, !orb_true_r.
  repeat split.
  unfold advance. apply present_fire_all_removed. exists 5000%Z.
  apply filter_In. split; [|reflexivity].
  cbn. apply in_or_app. right. now left.
Qed.

(** A toast asked for with a negative timeout stays however much time
    passes, as long as nothing removes it. *)
Lemma showToast_negative_timeout_persists
    (ty ti : option string) (msg : string) (x ms : Z) (w : World) :
  (x < 0)%Z ->
  let toast := {| t_type := ty; t_title := ti; t_message := msg;
                  t_timeout := Some x |} in
  let id := toast_id_of (Date_now w) (Math_random w (draws w)) in
  removal_scheduled id w = false ->
  present id (advance ms (snd (showToast toast w))) = true.
Proof.
  intros Hx toast id Hf.
  destruct (showToast_negative_timeout ty ti msg x w Hx) as (Ht & Hm).
  fold toast id in Ht, Hm.
  assert (Hf' : removal_scheduled id (snd (showToast toast w)) = false).
  { unfold removal_scheduled in *. now rewrite Hm. }
  rewrite (proj1 (advance_keeps_unscheduled id ms _ Hf')).
  unfold present. rewrite Ht, existsb_app. cbn.
  now rewrite String.eqb_refl, !orb_true_r.
Qed.

(** *** Toast ids *)

Lemma number_toString_inj (a b : Z) :
  number_toString a = number_toString b -> a = b.
Proof.
  unfold number_toString. intros H.
  assert (Hnn : forall z, Z.to_int z <> Pos Nil /\ Z.to_int z <> Neg Nil).
  { intros [|p|p]; cbn; split; try discriminate;
      intros E; inversion E as [E'];
      now apply DecimalPos.Unsigned.to_uint_nonnil in E'. }
  apply DecimalZ.to_int_inj.
  assert (Hs : Some (Z.to_int a) = Some (Z.to_int b)).
  { rewrite <- (NilZero.isi (Z.to_int a)) by apply Hnn.
    rewrite <- (NilZero.isi (Z.to_int b)) by apply Hnn.
    now rewrite H. }
  now inversion Hs.
Qed.

Lemma append_same_length_inv (s1 s2 r1 r2 : string) :
  String.length s1 = String.length s2 ->
  (s1 ++ r1 = s2 ++ r2)%string -> s1 = s2 /\ r1 = r2.
Proof.
  revert s2. induction s1 as [|c s1 IH]; intros [|c' s2] Hl H;
    try discriminate; cbn in *.
  - now split.
  - inversion H; subst. inversion Hl as [Hl'].
    destruct (IH s2 Hl' H2) as (-> & ->). now split.
Qed.

(** C9, amended: the id of a toast is the decimal timestamp followed by the
    first nine base-36 digits of the random draw, and nothing else.  For
    two calls whose timestamps have the same number of digits the ids are
    equal exactly when the calls fall in the same millisecond and their
    draws agree on those nine digits; they are distinct otherwise. *)
Theorem toast_id_equal_iff_same_clock_and_suffix
    (toast1 toast2 : ToastInput) (w1 w2 : World) :
  String.length (number_toString (Date_now w1))
  = String.length (number_toString (Date_now w2)) ->
  fst (showToast toast1 w1) = fst (showToast toast2 w2)
  <-> (Date_now w1 = Date_now w2
       /\ substr 2 9 (Math_random w1 (draws w1))
          = substr 2 9 (Math_random w2 (draws w2))).
Proof.
  intros Hl. rewrite !showToast_id. unfold toast_id_of. split.
  - intros H. inversion H as [H'].
    destruct (append_same_length_inv _ _ _ _ Hl H') as (Hn & Hr).
    split; [now apply number_toString_inj | exact Hr].
  - intros (Hn & Hr). now rewrite Hn, Hr.
Qed.

Lemma toast_id_equal_iff_same_clock_and_suffix_witness :
  fst (showToast (plain_toast None) (mounted granted granted))
  <> fst (showToast (plain_toast None)
            (with_clock 1730000000001 (mounted granted granted))).
Proof.
  intros H.
  apply (toast_id_equal_iff_same_clock_and_suffix
           (plain_toast None) (plain_toast None)
           (mounted granted granted)
           (with_clock 1730000000001 (mounted granted granted)) eq_refl) in H.
  destruct H as (Hn & _). cbn in Hn. discriminate Hn.
Defined.

(** C9 as stated fails: two toasts made in the same millisecond, with two
    different random draws that agree on their first nine digits, get the
    same id. *)
Lemma two_toasts_same_id :
  let w0 := two_toasts_one_millisecond in
  let w1 := snd (showToast (plain_toast None) w0) in
  let w2 := snd (showToast (plain_toast (Some 7000%Z)) w1) in
  Math_random w0 (draws w0) <> Math_random w1 (draws w1)
  /\ fst (showToast (plain_toast None) w0)
     = fst (showToast (plain_toast (Some 7000%Z)) w1)
  /\ map toast_id (toasts w2) = ["17300000000004fzyo82mv"; "17300000000004fzyo82mv"].
Proof.
  cbv zeta. split; [|split; reflexivity].
  vm_compute. intros E. discriminate E.
Qed.

(** *** Status notifications *)

Lemma own_property_absent (key : string) (table : list (string * StatusInfo)) :
  ~ In key (map fst table) -> own_property key table = None.
Proof.
  induction table as [|[k v] table IH]; intros Hno; [reflexivity|].
  cbn in *. destruct (String.eqb_spec k key) as [E|E].
  - exfalso. apply Hno. now left.
  - apply IH. intros Hin. apply Hno. now right.
Qed.

(** A status that is neither a key of the table nor a name every object
    inherits gets the default entry. *)
Lemma statusInfo_of_absent (status : string) :
  ~ In status table_keys -> ~ In status Object_prototype_names ->
  statusInfo_of status = default_statusInfo.
Proof.
  intros Hk Hp. unfold statusInfo_of, statusMessages_get.
  rewrite (own_property_absent status statusMessages Hk).
  destruct (existsb (String.eqb status) Object_prototype_names) eqn:E;
    [|reflexivity].
  apply existsb_exists in E. destruct E as (name & Hin & He).
  apply String.eqb_eq in He. subst. contradiction.
Qed.

Lemma notifyOrderStatusChange_absent_status (orderInfo : OrderInfo) :
  ~ In (status orderInfo) table_keys ->
  ~ In (status orderInfo) Object_prototype_names ->
  title (status_notification orderInfo) = "📋 상태 변경"
  /\ t_title (status_toast orderInfo) = Some "상태 변경"
  /\ t_type (status_toast orderInfo) = Some "info".
Proof.
  intros Hk Hp. unfold status_notification, status_toast.
  rewrite (statusInfo_of_absent _ Hk Hp). repeat split; reflexivity.
Qed.

Lemma notifyOrderStatusChange_unknown_value
    (oid : Z) (cn tn : option string) :
  let orderInfo := {| orderId := oid; status := "unknown-value";
                      customerName := cn; trackingNumber := tn |} in
  title (status_notification orderInfo) = "📋 상태 변경"
  /\ t_title (status_toast orderInfo) = Some "상태 변경"
  /\ t_type (status_toast orderInfo) = Some "info".
Proof. repeat split; reflexivity. Qed.

(** The delivered status and its flags, for the two statuses the
    specification names. *)
Lemma notifyOrderStatusChange_delivered_and_in_transit
    (oid : Z) (cn tn : option string) :
  let delivered := {| orderId := oid; status := "배송완료";
                      customerName := cn; trackingNumber := tn |} in
  let in_transit := {| orderId := oid; status := "배송중";
                       customerName := cn; trackingNumber := tn |} in
  requireInteraction (status_notification delivered) = Some true
  /\ t_type (status_toast delivered) = Some "success"
  /\ requireInteraction (status_notification in_transit) = Some false
  /\ t_type (status_toast in_transit) = Some "info".
Proof. repeat split; reflexivity. Qed.

(** Nothing in the hook throws. *)
Lemma showBrowserNotification_no_throw
    (fuel : nat) (p : NotificationPermission) (options : NotificationOptions)
    (w : World) (e : JsError) :
  fst (showBrowserNotification fuel p options w) <> Throw e.
Proof.
  revert w. induction fuel as [|fuel IH]; intros w; cbn;
    destruct (Notification_in_window w) eqn:Ha; destruct p; cbn;
    unfold_hook; cbn; rewrite ?Ha; cbn;
    try discriminate;
    try (destruct (timeout options) as [t|]; cbn;
         [destruct (Z.eqb t 0); cbn|]; discriminate);
    try (destruct (Notification_permission w); cbn;
         try destruct (user_answer w (prompts w)); cbn;
         try discriminate; apply IH).
Qed.

Lemma notifyOrderStatusChange_no_throw
    (fuel : nat) (p : NotificationPermission) (orderInfo : OrderInfo)
    (w : World) (e : JsError) :
  fst (notifyOrderStatusChange fuel p orderInfo w) <> Throw e.
Proof.
  unfold notifyOrderStatusChange, bind.
  destruct (showBrowserNotification fuel p (status_notification orderInfo) w)
    as [[r|e0|] w1] eqn:G.
  - pose proof (showToast_id (status_toast orderInfo) w1) as Hi.
    destruct (showToast (status_toast orderInfo) w1) as [o w2].
    cbn in Hi. subst o. cbn. discriminate.
  - exfalso.
    apply (showBrowserNotification_no_throw fuel p
             (status_notification orderInfo) w e0).
    now rewrite G.
  - cbn. discriminate.
Qed.

(** C8, at the input on which the code departs from it: the status
    ["constructor"] is not a key of the table, but the lookup
    [statusMessages[orderInfo.status]] finds the member every object
    inherits under that name, which is truthy, so the default entry is not
    taken: the title and the emoji read from it are [undefined], in the OS
    notification and in the toast. *)
Theorem notifyOrderStatusChange_inherited_name_not_default
    (oid : Z) (cn tn : option string) :
  let orderInfo := {| orderId := oid; status := "constructor";
                      customerName := cn; trackingNumber := tn |} in
  ~ In "constructor" table_keys
  /\ statusInfo_of "constructor" <> default_statusInfo
  /\ title (status_notification orderInfo) = "undefined undefined"
  /\ title (status_notification orderInfo) <> "📋 상태 변경"
  /\ t_title (status_toast orderInfo) = None
  /\ t_type (status_toast orderInfo) = None.
Proof.
  cbv zeta. split; [|split; [|split; [|split; [|split]]]]; try reflexivity.
  - cbn. intros H. repeat (destruct H as [H|H]; [discriminate H|]). exact H.
  - intros H. discriminate H.
  - cbn. intros H. discriminate H.
Qed.

End NotificationFacts.

(** ** The toast queue over time *)

Section ToastQueue.
Import Js Notification Spec Alerts.
Local Open Scope list_scope.

Lemma filter_twice {A} (f : A -> bool) (l : list A) :
  filter f (filter f l) = filter f l.
Proof.
  induction l as [|a l IH]; [reflexivity|].
  cbn. destruct (f a) eqn:E; cbn; [rewrite E, IH|]; auto.
Qed.


(** Removing a toast a second time changes nothing: the whole world after
    two removals of an id is the world after one. *)
Theorem removeToast_idempotent (id : string) (w : World) :
  removeToast id (snd (removeToast id w)) = (Return tt, snd (removeToast id w)).
Proof.
  unfold removeToast, setToasts, modify. cbn. f_equal.
  destruct w. unfold with_toasts. cbn. f_equal. apply filter_twice.
Qed.





Lemma fire_toasts_subset (action : TimerAction) (w : World) (toast : ToastNotification) :
  In toast (toasts (snd (fire action w))) -> In toast (toasts w).
Proof.
  destruct action as [k|id]; cbn; [auto|].
  intros H. apply filter_In in H. apply H.
Qed.

(** Time passing never puts a toast into the queue: whatever is in it after
    any lapse of time was in it before, so a cleared queue stays empty. *)
Theorem advance_never_adds_toasts (ms : Z) (w : World) (toast : ToastNotification) :
  In toast (toasts (advance ms w)) -> In toast (toasts w).
Proof.
  unfold advance.
  set (w1 := with_clock _ _).
  change (toasts w) with (toasts w1). clearbody w1. revert w1.
  induction (filter (due ms) (timers w)) as [|timer ready IH]; intros w1 H;
    [exact H|].
  cbn in H. apply IH in H. now apply fire_toasts_subset in H.
Qed.

Lemma advance_never_adds_toasts_witness :
  let w' := snd (showToast (plain_toast (Some 7000%Z)) (mounted granted granted)) in
  In {| toast_id := "17300000000004fzyo82mv"; toast_type := Some "info";
        toast_title := Some "t"; toast_message := "m";
        toast_timeout := Some 7000%Z |} (toasts w').
Proof.
  apply (advance_never_adds_toasts 1000
           (snd (showToast (plain_toast (Some 7000%Z)) (mounted granted granted)))).
  left. reflexivity.
Defined.

(** The progress bar of the toast container and the removal timer go
    together: [showToast] stores exactly one new toast, and it sets the
    removal of that toast, after the stored timeout, exactly when the
    container draws a progress bar for it. *)
Theorem progress_bar_iff_removal_set (toast : ToastInput) (w : World) :
  let w' := snd (showToast toast w) in
  exists stored,
    toasts w' = toasts w ++ [stored]
    /\ toast_id stored = toast_id_of (Date_now w) (Math_random w (draws w))
    /\ (shows_progress stored = true ->
        exists x, toast_timeout stored = Some x
                  /\ timers w' = timers w ++ [(x, RemoveToast (toast_id stored))])
    /\ (shows_progress stored = false -> timers w' = timers w).
Proof.
  destruct toast as [ty ti msg [[|x|x]|]]; cbn; eexists;
    (split; [reflexivity|]); (split; [reflexivity|]); cbn; split;
    intros H; try discriminate H; try reflexivity; eexists; split; reflexivity.
Qed.

End ToastQueue.

(** ** What an alert delivers *)

Section Delivery.
Import Js Notification Spec Alerts.
Local Open Scope list_scope.

(** Without the Notification API, or with the captured permission [denied],
    the OS channel does nothing at all. *)
Lemma showBrowserNotification_unavailable
    (fuel : nat) (p : NotificationPermission) (options : NotificationOptions)
    (w : World) :
  p = denied \/ Notification_in_window w = false ->
  showBrowserNotification fuel p options w = (Return None, w).
Proof.
  intros [Hp|Ha].
  - subst. apply showBrowserNotification_denied.
  - destruct fuel, p; cbn; rewrite Ha; cbn; try reflexivity;
      unfold requestPermission, bind, gets, ret; cbn; rewrite Ha; reflexivity.
Qed.

(** When the browser has no Notification API, or the permission the
    callback holds is [denied], a status change degrades to the toast alone:
    the call returns, no OS notification is shown, the browser is not asked
    for permission, and exactly one toast with a 5 s removal is added. *)
Theorem status_change_toast_only_when_unavailable
    (fuel : nat) (p : NotificationPermission) (orderInfo : OrderInfo) (w : World) :
  p = denied \/ Notification_in_window w = false ->
  let r := notifyOrderStatusChange fuel p orderInfo w in
  fst r = Return tt
  /\ displayed (snd r) = displayed w
  /\ requestPermission_calls (snd r) = requestPermission_calls w
  /\ prompts (snd r) = prompts w
  /\ toasts (snd r) = toasts w ++ [status_toast_stored orderInfo w]
  /\ timers (snd r)
     = timers w
       ++ [(5000%Z, RemoveToast (toast_id (status_toast_stored orderInfo w)))].
Proof.
  intros H. cbv zeta. unfold notifyOrderStatusChange, bind.
  rewrite (showBrowserNotification_unavailable fuel p _ w H).
  repeat split; reflexivity.
Qed.

Lemma status_change_toast_only_when_unavailable_witness :
  map toast_title
    (toasts (snd (notifyOrderStatusChange 0 denied
                    {| orderId := 7; status := "취소"; customerName := None;
                       trackingNumber := None |}
                    (mounted denied denied))))
  = [Some "주문 취소"].
Proof.
  destruct (status_change_toast_only_when_unavailable 0 denied
              {| orderId := 7; status := "취소"; customerName := None;
                 trackingNumber := None |}
              (mounted denied denied) (or_introl eq_refl))
    as (_ & _ & _ & _ & Ht & _).
  rewrite Ht. reflexivity.
Defined.

(** With the API present and the permission the callback holds [granted],
    a status change shows exactly one OS notification and adds exactly one
    toast, asks the browser nothing, and sets two timers: the notification
    closes after 8 s and the toast goes after 5 s. *)
Theorem status_change_delivers_both_when_granted
    (fuel : nat) (orderInfo : OrderInfo) (w : World) :
  Notification_in_window w = true ->
  let r := notifyOrderStatusChange fuel granted orderInfo w in
  fst r = Return tt
  /\ displayed (snd r) = displayed w ++ [shown (status_notification orderInfo)]
  /\ requestPermission_calls (snd r) = requestPermission_calls w
  /\ toasts (snd r) = toasts w ++ [status_toast_stored orderInfo w]
  /\ timers (snd r)
     = timers w
       ++ [(8000%Z, CloseNotification (length (displayed w)));
           (5000%Z, RemoveToast (toast_id (status_toast_stored orderInfo w)))].
Proof.
  intros Ha. cbv zeta. unfold notifyOrderStatusChange, bind.
  destruct fuel; cbn; rewrite Ha; cbn;
    rewrite <- ?app_assoc; repeat split; reflexivity.
Qed.

Lemma status_change_delivers_both_when_granted_witness :
  map n_title
    (displayed (snd (notifyOrderStatusChange 0 granted
                       {| orderId := 7; status := "배송중"; customerName := None;
                          trackingNumber := None |}
                       (mounted granted granted))))
  = ["🚚 배송 시작"].
Proof.
  destruct (status_change_delivers_both_when_granted 0
              {| orderId := 7; status := "배송중"; customerName := None;
                 trackingNumber := None |}
              (mounted granted granted) eq_refl)
    as (_ & Hd & _).
  rewrite Hd. reflexivity.
Defined.

(** A new-order alert under the same conditions: one OS notification that
    requires interaction and one toast, and the only timer set is the 7 s
    removal of the toast, so the notification is never closed by the hook. *)
Theorem new_order_notification_stays_open
    (fuel : nat) (orderInfo : NewOrderInfo) (w : World) :
  Notification_in_window w = true ->
  let r := notifyNewOrder fuel granted orderInfo w in
  fst r = Return tt
  /\ displayed (snd r) = displayed w ++ [shown (new_order_notification orderInfo)]
  /\ n_requireInteraction (shown (new_order_notification orderInfo)) = true
  /\ length (toasts (snd r)) = S (length (toasts w))
  /\ timers (snd r)
     = timers w
       ++ [(7000%Z, RemoveToast (toast_id_of (Date_now w)
                                   (Math_random w (draws w))))].
Proof.
  intros Ha. cbv zeta. unfold notifyNewOrder, bind.
  destruct fuel; cbn; rewrite Ha; cbn;
    (split; [reflexivity|]); (split; [reflexivity|]); (split; [reflexivity|]);
    (split; [rewrite length_app; cbn; lia|]); reflexivity.
Qed.

Lemma new_order_notification_stays_open_witness :
  timers (snd (notifyNewOrder 0 granted
                 {| new_orderId := 7; new_customerName := "Lee";
                    productName := None; amount := None |}
                 (mounted granted granted)))
  = [(7000%Z, RemoveToast "17300000000004fzyo82mv")].
Proof.
  destruct (new_order_notification_stays_open 0
              {| new_orderId := 7; new_customerName := "Lee";
                 productName := None; amount := None |}
              (mounted granted granted) eq_refl)
    as (_ & _ & _ & _ & Ht).
  rewrite Ht. reflexivity.
Defined.

(** The tag under which the OS may coalesce notifications identifies the
    order and nothing else: two status notifications carry the same tag
    exactly when they are about the same order id, two new-order
    notifications likewise, and a new-order notification never shares its
    tag with a status notification. *)
Theorem notification_tag_identifies_order
    (a b : OrderInfo) (c d : NewOrderInfo) :
  (tag (status_notification a) = tag (status_notification b)
   <-> orderId a = orderId b)
  /\ (tag (new_order_notification c) = tag (new_order_notification d)
      <-> new_orderId c = new_orderId d)
  /\ tag (new_order_notification c) <> tag (status_notification a).
Proof.
  split; [|split].
  - cbn. split.
    + intros H. inversion H as [H']. now apply number_toString_inj.
    + intros H. now rewrite H.
  - cbn. split.
    + intros H. inversion H as [H']. now apply number_toString_inj.
    + intros H. now rewrite H.
  - cbn. intros H. discriminate H.
Qed.

(** For every status that is not a name objects inherit, the entry the
    lookup yields is complete: title and emoji are defined and the colour is
    one of the four severities the toast container knows. *)
Theorem status_entry_complete_unless_inherited (s : string) :
  ~ In s Object_prototype_names ->
  exists t e c,
    statusInfo_of s = entry t e c /\ In c severities.
Proof.
  intros Hp. unfold statusInfo_of, statusMessages_get.
  assert (Hi : existsb (String.eqb s) Object_prototype_names = false).
  { destruct (existsb (String.eqb s) Object_prototype_names) eqn:E;
      [|reflexivity].
    apply existsb_exists in E. destruct E as (name & Hin & He).
    apply String.eqb_eq in He. subst. contradiction. }
  unfold statusMessages. cbn [own_property]. rewrite Hi.
  repeat match goal with
    | |- context [String.eqb ?k s] => destruct (String.eqb k s)
    end;
    do 3 eexists; (split; [reflexivity|]); cbn; auto 10.
Qed.

Lemma status_entry_complete_unless_inherited_witness :
  exists t e c, statusInfo_of "보류" = entry t e c /\ In c severities.
Proof.
  apply (status_entry_complete_unless_inherited "보류").
  cbn. intros H. repeat (destruct H as [H|H]; [discriminate H|]). exact H.
Defined.

(** *** The permission cell *)

Lemma requestPermission_in_sync (w : World) :
  Notification_in_window w = true -> in_sync (snd (requestPermission w)).
Proof.
  intros Ha. unfold in_sync, requestPermission, bind, gets. cbn. rewrite Ha.
  unfold Notification_requestPermission, setPermission, modify, bind, ret. cbn.
  destruct (Notification_permission w); cbn; auto.
Qed.

Lemma showBrowserNotification_in_sync
    (fuel : nat) (p : NotificationPermission) (options : NotificationOptions)
    (w : World) :
  in_sync w -> in_sync (snd (showBrowserNotification fuel p options w)).
Proof.
  revert w. induction fuel as [|fuel IH]; intros w Hs;
    pose proof Hs as (Ha & Hp); destruct p.
  all: try (rewrite showBrowserNotification_denied; exact Hs).
  all: try (rewrite showBrowserNotification_default_eq; unfold bind;
            pose proof (requestPermission_in_sync w Ha) as Hr;
            destruct (requestPermission w) as [[np|e|] w1]; cbn in Hr;
            try exact Hr; destruct np; cbn; try exact Hr; now apply IH).
  all: cbn; rewrite Ha; cbn; unfold bind, new_Notification, when, ret; cbn;
    (destruct (timeout options) as [t|]; cbn;
     [destruct (Z.eqb t 0); cbn|]; exact Hs).
Qed.

Lemma showToast_in_sync (toast : ToastInput) (w : World) :
  in_sync w -> in_sync (snd (showToast toast w)).
Proof.
  intros Hs. destruct toast as [ty ti msg [[|x|x]|]]; exact Hs.
Qed.

Lemma advance_in_sync (ms : Z) (w : World) :
  in_sync w -> in_sync (advance ms w).
Proof.
  intros Hs. unfold advance.
  set (w1 := with_clock _ _).
  assert (H1 : in_sync w1) by exact Hs. clearbody w1. revert w1 H1.
  induction (filter (due ms) (timers w)) as [|[d a] ready IH]; intros w1 H1;
    [exact H1|].
  cbn. apply IH. destruct a; exact H1.
Qed.

Lemma perform_in_sync (fuel : nat) (c : Call) (w : World) :
  in_sync w -> in_sync (perform fuel c w).
Proof.
  intros Hs. destruct c; cbn [perform].
  - apply requestPermission_in_sync, Hs.
  - unfold current_showBrowserNotification.
    now apply showBrowserNotification_in_sync.
  - now apply showToast_in_sync.
  - exact Hs.
  - exact Hs.
  - unfold current_notifyOrderStatusChange, notifyOrderStatusChange, bind.
    pose proof (showBrowserNotification_in_sync fuel (permission w)
                  (status_notification orderInfo) w Hs) as H1.
    destruct (showBrowserNotification fuel (permission w)
                (status_notification orderInfo) w) as [[r|e|] w1];
      cbn in *; exact H1.
  - unfold notifyNewOrder, bind.
    pose proof (showBrowserNotification_in_sync fuel (permission w)
                  (new_order_notification orderInfo) w Hs) as H1.
    destruct (showBrowserNotification fuel (permission w)
                (new_order_notification orderInfo) w) as [[r|e|] w1];
      cbn in *; exact H1.
  - now apply advance_in_sync.
Qed.

(** In a browser with the Notification API, once the hook is mounted its
    permission cell holds what the browser has on record, and no sequence of
    calls of the hook and lapses of time lets the two drift apart. *)
Theorem permission_cell_follows_browser
    (browser : NotificationPermission) (answers : nat -> NotificationPermission)
    (t : Z) (random : nat -> string) (fuel : nat) (cs : list Call) :
  let w := perform_all fuel cs
             (snd (mount (initialWorld true browser answers t random))) in
  permission w = Notification_permission w.
Proof.
  cbv zeta.
  assert (H0 : in_sync (snd (mount (initialWorld true browser answers t random))))
    by (split; reflexivity).
  revert H0. generalize (snd (mount (initialWorld true browser answers t random))).
  unfold perform_all.
  induction cs as [|c cs IH]; intros w Hs; [apply Hs|].
  cbn. apply IH. now apply perform_in_sync.
Qed.

End Delivery.

(** ** The dashboard over sequences of events *)

Section DashboardBehaviour.
Import Js Dashboard Spec Schedule.
Local Open Scope list_scope.

Ltac unfold_handlers :=
  unfold fetchOrders, handleStatusUpdate, handleStatusChange, onStatusUpdate,
    handleVisibilityChange, interval_callback, handleManualRefresh,
    toggleAutoRefresh, handleOrderClick, handleCloseModal,
    setOrders, setStats, setLoading, setSelectedOrder, setIsModalOpen,
    setIsAutoRefreshEnabled, setLastUpdated, setIsRefreshing,
    set_visibilityRef, setIsUpdatingStatus, setShowStatusDropdown,
    send, console_error, onOrderStatusChange,
    try_finally, try_catch, when, bind, ret, gets, modify, exec.

Ltac by_cases :=
  repeat match goal with
    | |- context [match server ?w ?n ?r with _ => _ end] =>
        destruct (server w n r) eqn:?; cbn
    | |- context [if ?b then _ else _] => destruct b eqn:?; cbn
    | |- context [match ?o with Some _ => _ | None => _ end] =>
        destruct o eqn:?; cbn
    end.

Ltac run_handlers := repeat (progress (cbn; unfold_handlers; cbn; by_cases)).

Lemma trigger_step (t : Trigger) (w : World) :
  let w' := exec (dispatch (event_of t)) w in
  refreshes w'
  = refreshes w
    + expected_refreshes (isAutoRefreshEnabled (ui w)) (visibilityRef (ui w)) [t]
  /\ isAutoRefreshEnabled (ui w')
     = match t with
       | Toggle => negb (isAutoRefreshEnabled (ui w))
       | _ => isAutoRefreshEnabled (ui w)
       end
  /\ visibilityRef (ui w')
     = match t with
       | Visibility hidden => negb hidden
       | _ => visibilityRef (ui w)
       end.
Proof.
  cbv zeta. destruct t as [|hidden| |]; cbn [event_of dispatch expected_refreshes].
  - unfold exec, bind, gets, when, interval_callback.
    cbn [fst snd]. destruct (isAutoRefreshEnabled (ui w)) eqn:He; cbn.
    + unfold bind, gets, when.
      destruct (visibilityRef (ui w)) eqn:Hv; cbn.
      * change (snd (fetchOrders true w)) with (exec (fetchOrders true) w).
        rewrite fetchOrders_refreshes.
        destruct (fetchOrders_keeps_flags true w) as (E1 & E2 & _).
        rewrite E1, E2, He, Hv. repeat split; cbn; try lia; auto.
      * rewrite He, Hv. repeat split; cbn; try lia; auto.
    + repeat split; cbn; try lia; auto.
  - unfold exec, bind, gets, modify, when, handleVisibilityChange,
      set_visibilityRef.
    cbn. destruct hidden; cbn.
    + repeat split; cbn; try lia; auto.
    + destruct (isAutoRefreshEnabled (ui w)) eqn:He; cbn.
      * match goal with
        | |- context [snd (fetchOrders true ?w0)] =>
            change (snd (fetchOrders true w0)) with (exec (fetchOrders true) w0);
            rewrite (fetchOrders_refreshes true w0);
            destruct (fetchOrders_keeps_flags true w0) as (E1 & E2 & _);
            rewrite E1, E2
        end.
        unfold refreshes. cbn. rewrite ?He. repeat split; cbn; try lia; auto.
      * rewrite He. repeat split; cbn; try lia; auto.
  - unfold handleManualRefresh.
    rewrite fetchOrders_refreshes.
    destruct (fetchOrders_keeps_flags true w) as (E1 & E2 & _).
    rewrite E1, E2. repeat split; cbn; try lia; auto.
  - unfold exec, toggleAutoRefresh, bind, gets, setIsAutoRefreshEnabled, modify.
    cbn. repeat split; cbn; try lia; auto.
Qed.

(** The number of list requests a run of scheduler events sends is fixed by
    the events and the two flags alone: one per manual refresh, one per
    change to visible while auto-refresh is on, one per elapsed period while
    auto-refresh is on and the page was last seen visible.  What the backend
    answers, failures included, never adds or saves a request. *)
Theorem refreshes_counted_by_triggers (ts : list Trigger) (w : World) :
  refreshes (run (map event_of ts) w)
  = refreshes w
    + expected_refreshes (isAutoRefreshEnabled (ui w)) (visibilityRef (ui w)) ts.
Proof.
  revert w. induction ts as [|t ts IH]; intros w; [cbn; lia|].
  change (run (map event_of (t :: ts)) w)
    with (run (map event_of ts) (exec (dispatch (event_of t)) w)).
  rewrite IH.
  destruct (trigger_step t w) as (Hr & He & Hv).
  rewrite Hr, He, Hv.
  destruct t; cbn [expected_refreshes]; lia.
Qed.

(** No handler of the dashboard lets an error out: whatever the backend
    answers, every event is handled to a normal return. *)
Theorem handlers_never_throw (ev : Event) (w : World) :
  fst (dispatch ev w) = Return tt.
Proof.
  destruct ev; run_handlers; reflexivity.
Qed.

Lemma dispatch_idle (ev : Event) (w : World) :
  idle w -> idle (exec (dispatch ev) w).
Proof.
  unfold idle. intros (Hl & Hr & Hu).
  destruct ev; run_handlers; auto.
Qed.

Lemma mount_idle (role : option string) (hidden : bool) (t : Z)
    (srv : nat -> Request -> Response) :
  idle (exec (dispatch Mount) (initialWorld role hidden t srv)).
Proof.
  unfold idle. cbn. unfold_handlers. cbn.
  destruct (srv 0 GET_orders); cbn; auto.
Qed.

(** Once the first load has settled, no run of events leaves a progress
    indicator on: after every handled event the loading flag, the refresh
    flag and the modal's updating flag are all down, whatever the backend
    answered. *)
Theorem no_indicator_left_on
    (role : option string) (hidden : bool) (t : Z)
    (srv : nat -> Request -> Response) (evs : list Event) :
  idle (run (Mount :: evs) (initialWorld role hidden t srv)).
Proof.
  change (run (Mount :: evs) ?w0) with (run evs (exec (dispatch Mount) w0)).
  pose proof (mount_idle role hidden t srv) as H0. revert H0.
  generalize (exec (dispatch Mount) (initialWorld role hidden t srv)).
  induction evs as [|ev evs IH]; intros w Hi; [exact Hi|].
  change (run (ev :: evs) w) with (run evs (exec (dispatch ev) w)).
  apply IH. now apply dispatch_idle.
Qed.

Lemma dispatch_keeps_role (ev : Event) (w : World) :
  user_role (exec (dispatch ev) w) = user_role w.
Proof.
  destruct ev; run_handlers; reflexivity.
Qed.

Lemma dispatch_regular_user (ev : Event) (w : World) :
  privileged (user_role w) = false ->
  Forall (fun r => is_GET r = true) (requests w) ->
  Forall (fun r => is_GET r = true) (requests (exec (dispatch ev) w)).
Proof.
  intros Hp Hf.
  assert (Hsnoc : Forall (fun r => is_GET r = true) (requests w ++ [GET_orders])).
  { apply Forall_app. split; [exact Hf | repeat constructor]. }
  destruct ev; cbn [dispatch].
  8: { unfold handleStatusChange, onStatusUpdate, exec. rewrite Hp. exact Hf. }
  all: run_handlers; auto.
Qed.

(** For a user who is neither admin nor manager the dashboard never sends a
    status update: in every run of events every request sent is a list
    request. *)
Theorem regular_user_sends_no_update
    (role : option string) (hidden : bool) (t : Z)
    (srv : nat -> Request -> Response) (evs : list Event) :
  privileged role = false ->
  Forall (fun r => is_GET r = true)
    (requests (run evs (initialWorld role hidden t srv))).
Proof.
  intros Hp.
  assert (H0 : privileged (user_role (initialWorld role hidden t srv)) = false
               /\ Forall (fun r => is_GET r = true)
                    (requests (initialWorld role hidden t srv)))
    by (split; [exact Hp | constructor]).
  revert H0. generalize (initialWorld role hidden t srv).
  induction evs as [|ev evs IH]; intros w (Hr & Hf); [exact Hf|].
  change (run (ev :: evs) w) with (run evs (exec (dispatch ev) w)).
  apply IH. split.
  - now rewrite dispatch_keeps_role.
  - now apply dispatch_regular_user.
Qed.

Lemma regular_user_sends_no_update_witness :
  Forall (fun r => is_GET r = true)
    (requests (run [Mount; StatusChange order1 "배송완료"; ManualRefresh]
                 (initialWorld (Some "user") false 0 (server_serving [order1])))).
Proof.
  apply (regular_user_sends_no_update (Some "user") false 0
           (server_serving [order1])
           [Mount; StatusChange order1 "배송완료"; ManualRefresh]).
  reflexivity.
Defined.

(** After an accepted status update the notification callback is called
    exactly once when an order is open in the modal and the callback was
    given, and not at all otherwise; whether the refresh in between
    succeeded plays no part.  The customer name and the tracking number it
    passes are those of the order open in the modal. *)
Theorem accepted_update_notifies_once
    (w : World) (orderId : Z) (s : string) (ack : option (list ShippingOrder)) :
  server w (length (requests w)) (PATCH_status orderId s) = Fulfilled ack ->
  notified (exec (handleStatusUpdate orderId s) w)
  = notified w
    ++ match selectedOrder (ui w) with
       | Some sel =>
           if has_onOrderStatusChange w
           then [{| Dashboard.orderId := orderId; newStatus := s;
                    customerName := receiver_name sel;
                    trackingNumber := tracking_number sel |}]
           else []
       | None => []
       end.
Proof.
  destruct w as [[os st ld so mo en lu rf vr] md rl cb hd nw sv rq cs nt].
  cbn. intros H.
  unfold handleStatusUpdate, exec, try_catch, bind, gets, send, when, ret.
  cbn. rewrite H. cbn. unfold_handlers. cbn.
  destruct (sv _ GET_orders) as [e|body]; cbn;
    destruct so as [sel|]; cbn;
    try destruct (Z.eqb (id sel) orderId); cbn;
    destruct cb; cbn; rewrite ?app_nil_r; reflexivity.
Qed.

Lemma accepted_update_notifies_once_witness :
  map customerName
    (notified (exec (handleStatusUpdate 2 "취소")
                 (showing [order1; order2] (Some order1) server_update_only)))
  = ["Lee"].
Proof.
  rewrite (accepted_update_notifies_once
             (showing [order1; order2] (Some order1) server_update_only)
             2 "취소" None eq_refl).
  reflexivity.
Defined.

End DashboardBehaviour.

(** ** The order list on the screen *)

Section Listing.
Import Js Dashboard Spec View.
Local Open Scope list_scope.

Lemma includes_empty (s : string) : includes s "" = true.
Proof. destruct s; reflexivity. Qed.

Lemma matches_empty_search
    (toLowerCase : string -> string) (searchTerm statusFilter : string)
    (order : ShippingOrder) :
  toLowerCase searchTerm = "" ->
  matches toLowerCase searchTerm statusFilter order
  = String.eqb statusFilter "all" || String.eqb (status order) statusFilter.
Proof.
  intros H. unfold matches. rewrite H, !includes_empty, orb_true_r.
  reflexivity.
Qed.

Lemma filter_true {A} (l : list A) : filter (fun _ => true) l = l.
Proof. induction l as [|a l IH]; cbn; [|rewrite IH]; reflexivity. Qed.

(** With an empty search box and the filter on "all", the list shows every
    order of the snapshot, in the snapshot's order, whatever the orders'
    names, tracking numbers and statuses are. *)
Theorem no_filter_lists_every_order
    (toLowerCase : string -> string) (searchTerm : string)
    (l : list ShippingOrder) :
  toLowerCase searchTerm = "" ->
  filteredOrders toLowerCase searchTerm "all" l = l.
Proof.
  intros H. unfold filteredOrders.
  rewrite (filter_ext _ (fun _ => true)); [apply filter_true|].
  intros o. now rewrite matches_empty_search.
Qed.

Lemma no_filter_lists_every_order_witness :
  filteredOrders (fun s => s) "" "all" [order1; order2; order3]
  = [order1; order2; order3].
Proof.
  apply (no_filter_lists_every_order (fun s => s) "" [order1; order2; order3]).
  reflexivity.
Defined.

Lemma filtered_by_status_length
    (toLowerCase : string -> string) (searchTerm s : string)
    (l : list ShippingOrder) :
  toLowerCase searchTerm = "" -> String.eqb s "all" = false ->
  length (filteredOrders toLowerCase searchTerm s l) = occurrences s l.
Proof.
  intros H Hs. rewrite <- count_status_occurrences.
  unfold filteredOrders, count_status. f_equal. apply filter_ext.
  intros o. now rewrite matches_empty_search, Hs.
Qed.

(** In every state the dashboard reaches, with an empty search box, the
    number of rows listed under each of the six status filters is the
    number the statistics hold for that status. *)
Theorem rows_under_filter_match_counter
    (toLowerCase : string -> string) (searchTerm : string)
    (role : option string) (hidden : bool) (t : Z)
    (srv : nat -> Request -> Response) (evs : list Event) :
  toLowerCase searchTerm = "" ->
  let st := ui (run evs (initialWorld role hidden t srv)) in
  let rows := fun s => length (filteredOrders toLowerCase searchTerm s (orders st)) in
  rows "접수완료" = 접수완료 (stats st)
  /\ rows "배송준비" = 배송준비 (stats st)
  /\ rows "배송중" = 배송중 (stats st)
  /\ rows "배송완료" = 배송완료 (stats st)
  /\ rows "취소" = 취소 (stats st)
  /\ rows "반송" = 반송 (stats st).
Proof.
  intros H st rows. subst rows.
  destruct (run_consistent evs (initialWorld role hidden t srv)
              (initialState_consistent t))
    as (_ & H1 & H2 & H3 & H4 & H5 & H6).
  fold st in H1, H2, H3, H4, H5, H6.
  rewrite H1, H2, H3, H4, H5, H6.
  repeat split; now apply filtered_by_status_length.
Qed.

Lemma rows_under_filter_match_counter_witness :
  let st := ui (run [Mount] (initialWorld None false 0
                               (server_serving [order1; order2; order3]))) in
  length (filteredOrders (fun s => s) "" "배송중" (orders st)) = 배송중 (stats st).
Proof.
  destruct (rows_under_filter_match_counter (fun s => s) "" None false 0
              (server_serving [order1; order2; order3]) [Mount] eq_refl)
    as (_ & _ & H & _).
  exact H.
Defined.



End Listing.

(** ** Assigning a tracking number *)

Section TrackingFacts.
Import Js Tracking.
Local Open Scope list_scope.

Ltac unfold_tracking :=
  unfold handleTrackingAssign, assignTrackingNumber, onTrackingAssigned,
    Tracking.console_error, alert, setShowTrackingForm, setTrackingFormData,
    lift, try_catch, bind, gets, modify, ret.

(** A tracking number that is blank after trimming stops the handler at
    once: the user is asked for a number, and nothing is posted, the
    dashboard is not touched and the form stays as it is. *)
Theorem blank_tracking_number_is_not_posted
    (trim : string -> string) (order : Dashboard.ShippingOrder) (w : World) :
  trim (tracking_number (trackingFormData w)) = "" ->
  let r := handleTrackingAssign trim order w in
  fst r = Return tt
  /\ alerts (snd r) = alerts w ++ ["운송장 번호를 입력해주세요."]
  /\ assignments (snd r) = assignments w
  /\ dashboard (snd r) = dashboard w
  /\ showTrackingForm (snd r) = showTrackingForm w
  /\ trackingFormData (snd r) = trackingFormData w.
Proof.
  intros H. cbv zeta. unfold handleTrackingAssign, bind, gets. cbn.
  rewrite H. repeat split; reflexivity.
Qed.

Lemma blank_tracking_number_is_not_posted_witness :
  assignments (snd (handleTrackingAssign (fun s => s) Spec.order1
                      (filled "" "CJ" None None))) = [].
Proof.
  destruct (blank_tracking_number_is_not_posted (fun s => s) Spec.order1
              (filled "" "CJ" None None) eq_refl)
    as (_ & _ & H & _).
  exact H.
Defined.

(** When the backend accepts the assignment: exactly one assignment was
    posted, for this order, with the trimmed number and with a blank company
    or date left out; the form is closed and emptied; the dashboard sends
    exactly one list request; and the user is told of the success. *)
Theorem accepted_assignment_refreshes_once
    (trim : string -> string) (order : Dashboard.ShippingOrder) (w : World) :
  let form := trackingFormData w in
  let data := {| sent_tracking_number := trim (tracking_number form);
                 sent_tracking_company := or_undefined (trim (tracking_company form));
                 sent_estimated_delivery := or_undefined (estimated_delivery form) |} in
  trim (tracking_number form) <> "" ->
  tracking_server w (length (assignments w)) (Dashboard.id order) data = None ->
  let r := handleTrackingAssign trim order w in
  fst r = Return tt
  /\ assignments (snd r) = assignments w ++ [(Dashboard.id order, data)]
  /\ showTrackingForm (snd r) = false
  /\ trackingFormData (snd r)
     = {| tracking_number := ""; tracking_company := ""; estimated_delivery := "" |}
  /\ Dashboard.requests (dashboard (snd r))
     = Dashboard.requests (dashboard w) ++ [Dashboard.GET_orders]
  /\ alerts (snd r) = alerts w ++ ["운송장 번호가 성공적으로 할당되었습니다."].
Proof.
  cbv zeta. intros Hn Hs.
  unfold handleTrackingAssign, bind, gets. cbn.
  destruct (trim (tracking_number (trackingFormData w))) as [|c rest] eqn:Ht;
    [contradiction|].
  unfold_tracking. cbn. rewrite Hs. cbn.
  assert (Hq : fst (Dashboard.fetchOrders true (dashboard w)) = Return tt
               /\ Dashboard.requests (Dashboard.exec (Dashboard.fetchOrders true)
                                        (dashboard w))
                  = Dashboard.requests (dashboard w) ++ [Dashboard.GET_orders]).
  { destruct (Dashboard.server (dashboard w)
                (length (Dashboard.requests (dashboard w))) Dashboard.GET_orders)
      as [e|body] eqn:G.
    - destruct (fetchOrders_rejected true (dashboard w) e G)
        as (H1 & _ & _ & H2 & _). now split.
    - destruct (fetchOrders_fulfilled true (dashboard w) body G)
        as (H1 & _ & _ & H2 & _). now split. }
  destruct Hq as (Hr & Hq). unfold Dashboard.exec in Hq.
  destruct (Dashboard.fetchOrders true (dashboard w)) as [r d].
  cbn in Hr, Hq. subst r. cbn. repeat split; auto.
Qed.

Lemma accepted_assignment_refreshes_once_witness :
  let r := handleTrackingAssign (fun s => s) Spec.order1
             (filled "1234567890" "" None None) in
  assignments (snd r)
  = [(1%Z, {| sent_tracking_number := "1234567890";
              sent_tracking_company := None;
              sent_estimated_delivery := None |})]
  /\ Dashboard.requests (dashboard (snd r)) = [Dashboard.GET_orders].
Proof.
  destruct (accepted_assignment_refreshes_once (fun s => s) Spec.order1
              (filled "1234567890" "" None None))
    as (_ & Ha & _ & _ & Hq & _).
  - cbn. discriminate.
  - reflexivity.
  - split; [exact Ha | exact Hq].
Defined.

(** When the backend rejects the assignment: the error is caught and logged,
    the user is shown the message of the response, or a fixed text when the
    response carries none, and nothing else moves: no list request is sent,
    the snapshot is untouched, and the form stays open with what was typed. *)
Theorem rejected_assignment_keeps_form
    (trim : string -> string) (order : Dashboard.ShippingOrder) (w : World)
    (e : JsError) :
  let form := trackingFormData w in
  let data := {| sent_tracking_number := trim (tracking_number form);
                 sent_tracking_company := or_undefined (trim (tracking_company form));
                 sent_estimated_delivery := or_undefined (estimated_delivery form) |} in
  trim (tracking_number form) <> "" ->
  tracking_server w (length (assignments w)) (Dashboard.id order) data = Some e ->
  let r := handleTrackingAssign trim order w in
  fst r = Return tt
  /\ showTrackingForm (snd r) = showTrackingForm w
  /\ trackingFormData (snd r) = trackingFormData w
  /\ Dashboard.requests (dashboard (snd r)) = Dashboard.requests (dashboard w)
  /\ Dashboard.ui (dashboard (snd r)) = Dashboard.ui (dashboard w)
  /\ Dashboard.console (dashboard (snd r))
     = Dashboard.console (dashboard w) ++ [("운송장 할당 실패:", e)]
  /\ alerts (snd r)
     = alerts w
       ++ [or_string (response_message w e) "운송장 할당 중 오류가 발생했습니다."].
Proof.
  cbv zeta. intros Hn Hs.
  unfold handleTrackingAssign, bind, gets. cbn.
  destruct (trim (tracking_number (trackingFormData w))) as [|c rest] eqn:Ht;
    [contradiction|].
  unfold_tracking. cbn. rewrite Hs. cbn. repeat split; reflexivity.
Qed.

Lemma rejected_assignment_keeps_form_witness :
  alerts (snd (handleTrackingAssign (fun s => s) Spec.order1
                 (filled "1234567890" "CJ" (Some Spec.network_error) None)))
  = ["운송장 할당 중 오류가 발생했습니다."].
Proof.
  destruct (rejected_assignment_keeps_form (fun s => s) Spec.order1
              (filled "1234567890" "CJ" (Some Spec.network_error) None)
              Spec.network_error)
    as (_ & _ & _ & _ & _ & _ & Ha).
  - cbn. discriminate.
  - reflexivity.
  - exact Ha.
Defined.

End TrackingFacts.

(** ** The session *)

Section SessionFacts.
Import Js Session.
Local Open Scope list_scope.

(** Logging out always ends logged out: whether the backend accepts the
    request, rejects it or cannot be reached, afterwards there is no user and
    no token. *)
Theorem logout_always_clears (reply : Reply unit) (w : World) :
  user (logout reply w) = None /\ jwt_token (logout reply w) = None.
Proof.
  destruct reply as [[]|[code|] message]; cbn; auto.
Qed.

Ltac split_ifs :=
  repeat match goal with
    | |- context [if ?b then _ else _] => destruct b eqn:?; cbn in *
    end.

Lemma step_unconfirmed (s : Step) (w : World) :
  unconfirmed s = true -> user w = None -> user (step s w) = None.
Proof.
  intros Hu Hw.
  destruct s as [[[a [u|]]|[c|] m]|[[[u|] tk]|[c|] m]|[[]|[c|] m]];
    try destruct a; cbn in *; try discriminate; split_ifs; auto.
Qed.

(** The client takes nobody for logged in on its own account: as long as no
    reply of the backend confirms a user (a session check that is
    authenticated and names a user, or a login answered with a user), every
    run of session checks, logins and logouts leaves the user empty. *)
Theorem no_user_without_confirmation
    (token : option string) (steps : list Step) :
  Forall (fun s => unconfirmed s = true) steps ->
  user (run steps (initialWorld token)) = None.
Proof.
  assert (H0 : user (initialWorld token) = None) by reflexivity.
  revert H0. generalize (initialWorld token).
  induction steps as [|s steps IH]; intros w Hw Hf; [exact Hw|].
  inversion Hf as [|? ? Hs Hrest]; subst.
  cbn. apply IH; [|exact Hrest]. now apply step_unconfirmed.
Qed.

Lemma no_user_without_confirmation_witness :
  user (run [CheckSession (Failed (Some 401%Z) None);
             Login (Failed (Some 401%Z) (Some "비밀번호가 올바르지 않습니다."));
             Logout (Failed None None)]
          (initialWorld (Some "stale"))) = None.
Proof.
  apply (no_user_without_confirmation (Some "stale")).
  repeat constructor.
Defined.

(** A session check the backend does not confirm leaves no usable token
    behind and ends the loading state: whether the request failed or the
    answer was not an authenticated user, afterwards the stored token is
    absent or empty, the loading flag is down and the user is who it was. *)
Theorem unconfirmed_check_drops_token (reply : Reply MeData) (w : World) :
  unconfirmed (CheckSession reply) = true ->
  isAuthenticated (checkSession reply w) = false
  /\ isLoading (checkSession reply w) = false
  /\ user (checkSession reply w) = user w.
Proof.
  intros Hu.
  destruct reply as [[a [u|]]|[c|] m]; try destruct a; cbn in *;
    try discriminate; unfold isAuthenticated in *; cbn in *.
  all: destruct (jwt_token w) as [[|ch tk]|] eqn:Ht; cbn in *; rewrite ?Ht;
    cbn; split_ifs; unfold isAuthenticated in *; cbn in *; rewrite ?Ht in *;
    cbn in *; try discriminate; auto.
Qed.

Lemma unconfirmed_check_drops_token_witness :
  isAuthenticated (checkSession (Failed (Some 500%Z) None)
                     (initialWorld (Some "expired"))) = false.
Proof.
  apply (unconfirmed_check_drops_token (Failed (Some 500%Z) None)
           (initialWorld (Some "expired"))).
  reflexivity.
Defined.

End SessionFacts.

(** ** The hook without permission *)

Section Degraded.
Import Js Notification Spec Alerts.
Local Open Scope list_scope.

Lemma advance_keeps_browser (ms : Z) (w : World) :
  Notification_in_window (advance ms w) = Notification_in_window w
  /\ permission (advance ms w) = permission w
  /\ Notification_permission (advance ms w) = Notification_permission w
  /\ displayed (advance ms w) = displayed w
  /\ requestPermission_calls (advance ms w) = requestPermission_calls w
  /\ prompts (advance ms w) = prompts w.
Proof.
  unfold advance.
  set (w1 := with_clock _ _).
  change (Notification_in_window w) with (Notification_in_window w1).
  change (permission w) with (permission w1).
  change (Notification_permission w) with (Notification_permission w1).
  change (displayed w) with (displayed w1).
  change (requestPermission_calls w) with (requestPermission_calls w1).
  change (prompts w) with (prompts w1).
  clearbody w1. revert w1.
  induction (filter (due ms) (timers w)) as [|[d a] ready IH]; intros w1;
    [repeat split|].
  cbn [fold_left snd].
  destruct (IH (snd (fire a w1))) as (H1 & H2 & H3 & H4 & H5 & H6).
  rewrite H1, H2, H3, H4, H5, H6. destruct a; repeat split.
Qed.

Lemma showToast_keeps_browser (toast : ToastInput) (w : World) :
  Notification_in_window (snd (showToast toast w)) = Notification_in_window w
  /\ permission (snd (showToast toast w)) = permission w
  /\ Notification_permission (snd (showToast toast w)) = Notification_permission w
  /\ displayed (snd (showToast toast w)) = displayed w
  /\ requestPermission_calls (snd (showToast toast w)) = requestPermission_calls w
  /\ prompts (snd (showToast toast w)) = prompts w.
Proof.
  destruct toast as [ty ti msg [[|x|x]|]]; repeat split.
Qed.

Lemma perform_without_api (fuel : nat) (c : Call) (w : World) :
  Notification_in_window w = false ->
  Notification_in_window (perform fuel c w) = false
  /\ displayed (perform fuel c w) = displayed w
  /\ permission (perform fuel c w) = permission w
  /\ requestPermission_calls (perform fuel c w) = requestPermission_calls w.
Proof.
  intros Ha. destruct c; cbn [perform].
  - unfold requestPermission, bind, gets, ret. cbn. rewrite Ha. cbn. auto.
  - unfold current_showBrowserNotification.
    rewrite showBrowserNotification_unavailable by (now right). cbn. auto.
  - destruct (showToast_keeps_browser toast w) as (H1 & H2 & _ & H4 & H5 & _).
    rewrite H1, H2, H4, H5. auto.
  - cbn. auto.
  - cbn. auto.
  - unfold current_notifyOrderStatusChange, notifyOrderStatusChange, bind.
    rewrite showBrowserNotification_unavailable by (now right).
    destruct (showToast_keeps_browser (status_toast orderInfo) w)
      as (H1 & H2 & _ & H4 & H5 & _).
    destruct (showToast (status_toast orderInfo) w) as [[i|e|] w2];
      cbn in *; rewrite ?H1, ?H2, ?H4, ?H5; auto.
  - unfold notifyNewOrder, bind.
    rewrite showBrowserNotification_unavailable by (now right).
    destruct (showToast_keeps_browser (new_order_toast orderInfo) w)
      as (H1 & H2 & _ & H4 & H5 & _).
    destruct (showToast (new_order_toast orderInfo) w) as [[i|e|] w2];
      cbn in *; rewrite ?H1, ?H2, ?H4, ?H5; auto.
  - destruct (advance_keeps_browser ms w) as (H1 & H2 & _ & H4 & H5 & _).
    rewrite H1, H2, H4, H5. auto.
Qed.

(** In a browser without the Notification API the OS channel is dead: no
    sequence of calls of the hook and lapses of time ever shows an OS
    notification, calls the browser for permission or changes the
    permission cell. *)
Theorem without_api_nothing_reaches_the_os
    (fuel : nat) (cs : list Call) (w : World) :
  Notification_in_window w = false ->
  displayed (perform_all fuel cs w) = displayed w
  /\ permission (perform_all fuel cs w) = permission w
  /\ requestPermission_calls (perform_all fuel cs w) = requestPermission_calls w.
Proof.
  unfold perform_all. revert w.
  induction cs as [|c cs IH]; intros w Ha; [auto|].
  cbn [fold_left].
  destruct (perform_without_api fuel c w Ha) as (H1 & H2 & H3 & H4).
  destruct (IH _ H1) as (I2 & I3 & I4).
  rewrite I2, I3, I4. auto.
Qed.

Lemma without_api_nothing_reaches_the_os_witness :
  displayed (perform_all 3
               [CallRequestPermission;
                CallNotifyOrderStatusChange
                  {| orderId := 7; status := "배송완료"; customerName := None;
                     trackingNumber := None |};
                Elapse 9000]
               (initialWorld false default (fun _ => granted) 0
                  (fun _ => "0.4fzyo82mvyr"))) = [].
Proof.
  apply (without_api_nothing_reaches_the_os 3
           [CallRequestPermission;
            CallNotifyOrderStatusChange
              {| orderId := 7; status := "배송완료"; customerName := None;
                 trackingNumber := None |};
            Elapse 9000]
           (initialWorld false default (fun _ => granted) 0
              (fun _ => "0.4fzyo82mvyr"))).
  reflexivity.
Defined.

Lemma perform_denied (fuel : nat) (c : Call) (w : World) :
  permission w = denied -> Notification_permission w = denied ->
  permission (perform fuel c w) = denied
  /\ Notification_permission (perform fuel c w) = denied
  /\ displayed (perform fuel c w) = displayed w
  /\ prompts (perform fuel c w) = prompts w.
Proof.
  intros Hp Hb. destruct c; cbn [perform].
  - unfold requestPermission, bind, gets, ret, Notification_requestPermission,
      setPermission, modify.
    cbn. destruct (Notification_in_window w); cbn; rewrite ?Hb; cbn; auto.
  - unfold current_showBrowserNotification. rewrite Hp.
    rewrite showBrowserNotification_denied. cbn. auto.
  - destruct (showToast_keeps_browser toast w) as (_ & H2 & H3 & H4 & _ & H6).
    rewrite H2, H3, H4, H6. auto.
  - cbn. auto.
  - cbn. auto.
  - unfold current_notifyOrderStatusChange, notifyOrderStatusChange, bind.
    rewrite Hp, showBrowserNotification_denied.
    destruct (showToast_keeps_browser (status_toast orderInfo) w)
      as (_ & H2 & H3 & H4 & _ & H6).
    destruct (showToast (status_toast orderInfo) w) as [[i|e|] w2];
      cbn in *; rewrite ?H2, ?H3, ?H4, ?H6; auto.
  - unfold notifyNewOrder, bind.
    rewrite Hp, showBrowserNotification_denied.
    destruct (showToast_keeps_browser (new_order_toast orderInfo) w)
      as (_ & H2 & H3 & H4 & _ & H6).
    destruct (showToast (new_order_toast orderInfo) w) as [[i|e|] w2];
      cbn in *; rewrite ?H2, ?H3, ?H4, ?H6; auto.
  - destruct (advance_keeps_browser ms w) as (_ & H2 & H3 & H4 & _ & H6).
    rewrite H2, H3, H4, H6. auto.
Qed.

(** Once the permission is denied, in the hook's cell and on the browser's
    record, it stays denied through every sequence of calls of the hook: the
    user is never prompted again and no OS notification is ever shown. *)
Theorem denied_is_never_prompted_again
    (fuel : nat) (cs : list Call) (w : World) :
  permission w = denied -> Notification_permission w = denied ->
  permission (perform_all fuel cs w) = denied
  /\ displayed (perform_all fuel cs w) = displayed w
  /\ prompts (perform_all fuel cs w) = prompts w.
Proof.
  unfold perform_all. revert w.
  induction cs as [|c cs IH]; intros w Hp Hb; [auto|].
  cbn [fold_left].
  destruct (perform_denied fuel c w Hp Hb) as (H1 & H2 & H3 & H4).
  destruct (IH _ H1 H2) as (I1 & I3 & I4).
  rewrite I1, I3, I4. auto.
Qed.

Lemma denied_is_never_prompted_again_witness :
  prompts (perform_all 3
             [CallRequestPermission;
              CallShowBrowserNotification options_X_Y;
              CallRequestPermission]
             (mounted denied granted)) = 0.
Proof.
  apply (denied_is_never_prompted_again 3
           [CallRequestPermission;
            CallShowBrowserNotification options_X_Y;
            CallRequestPermission]
           (mounted denied granted)); reflexivity.
Defined.

End Degraded.

(** ** The order form *)

Section OrderFormFacts.
Import Js OrderForm.
Local Open Scope list_scope.

Lemma move_in_range (m : Move) (w : World) :
  (1 <= currentStep w <= 4)%Z -> (1 <= currentStep (move m w) <= 4)%Z.
Proof.
  intros H. destruct m as [[|]|]; cbn; lia.
Qed.

(** The step of the form never leaves 1..4: whatever sequence of "next"
    (with fields valid or not) and "previous" the user makes from the first
    step, the current step is one of the four the form renders. *)
Theorem step_stays_in_range (moves : list Move) :
  (1 <= currentStep (fold_left (fun w m => move m w) moves initialWorld) <= 4)%Z.
Proof.
  assert (H0 : (1 <= currentStep initialWorld <= 4)%Z) by (cbn; lia).
  revert H0. generalize initialWorld.
  induction moves as [|m moves IH]; intros w Hw; [exact Hw|].
  cbn. apply IH. now apply move_in_range.
Qed.

(** Submitting raises a new-order alert exactly when the order was created
    with an order id that is not 0 and the callback is given: then one
    alert, for that id, named after the receiver; in every other case,
    rejection included, none.  Navigation is scheduled exactly for an
    accepted order, and whatever happened the submitting flag is down
    afterwards. *)
Lemma submit_alerts_only_for_created_order
    (has_onNewOrder has_onSuccess : bool) (data : FormData)
    (reply : Session.Reply CreateResponse) (w : World) :
  let w' := onSubmit has_onNewOrder has_onSuccess data reply w in
  isSubmitting w' = false
  /\ alerted w'
     = alerted w
       ++ match reply with
          | Session.Ok response =>
              match truthy_id (orderId response) with
              | Some id =>
                  if has_onNewOrder
                  then [{| Alerts.new_orderId := id;
                           Alerts.new_customerName := receiver_name data;
                           Alerts.productName := package_description data;
                           Alerts.amount := package_value data |}]
                  else []
              | None => []
              end
          | Session.Failed _ _ => []
          end
  /\ navigations w'
     = navigations w
       ++ match reply with
          | Session.Ok _ => if has_onSuccess then [2000%Z] else []
          | Session.Failed _ _ => []
          end
  /\ (match reply with
      | Session.Ok _ => True
      | Session.Failed _ _ =>
          exists text, submitResult w'
                       = Some {| success := false; message := text;
                                 result_trackingNumber := None |}
      end).
Proof.
  cbv zeta.
  destruct reply as [[oid tn]|st msg]; cbn;
    [destruct (truthy_id oid); destruct has_onNewOrder, has_onSuccess; cbn|];
    rewrite ?app_nil_r; repeat split; eauto.
Qed.

End OrderFormFacts.
